(** * Resume portfolio: search, terminal and assistant pipeline

    A shallow embedding of the branching logic of [App.tsx] together with the
    data of [constants.ts] and the types of [types.ts]:

    - the content store ([RESUME_DATA], [PROJECTS], [EDUCATION_HISTORY],
      [SKILL_METRICS], ...);
    - [App]: the view state with [handleSearch] and [handleNavClick];
    - [TerminalView]: the scrollback with [handleCommand];
    - [NeuralChatWidget]: [getSimulationResponse] and [handleSend], whose
      asynchronous continuations (timers, the awaited API call) are explicit
      pending tasks of a small transition system.

    React state is modelled by explicit state passing: a handler takes the
    state of the render it closes over and returns the state after all of its
    setter calls.  Strings are sequences of 8-bit characters; [toLowerCase]
    folds the letters A-Z, which is what [String.prototype.toLowerCase] does on
    the ASCII text the content store is written in.  [JS.isASCII] marks the
    typed text on which [trim] and [toLowerCase] coincide with JavaScript's;
    the properties that depend on them are stated for such text. *)

From Stdlib Require Import ZArith Ascii DecimalString.
From stdpp Require Import base list strings.

Local Open Scope Z_scope.

(** ** JavaScript string primitives *)

Module JS.

(** The double quote character, for the literals that contain one. *)
Definition dquote : string := String "034"%char "".

Definition lowerChar (c : ascii) : ascii :=
  let n := nat_of_ascii c in
  if (Nat.leb 65 n && Nat.leb n 90)%bool then ascii_of_nat (n + 32) else c.

(** [s.toLowerCase()], on a string of ASCII characters. *)
Fixpoint toLowerCase (s : string) : string :=
  match s with
  | EmptyString => EmptyString
  | String c s' => String (lowerChar c) (toLowerCase s')
  end.

(** [s.startsWith(sub)], the test [includes] performs at each position. *)
Fixpoint startsWith (s sub : string) {struct sub} : bool :=
  match sub, s with
  | EmptyString, _ => true
  | String _ _, EmptyString => false
  | String c sub', String d s' => Ascii.eqb c d && startsWith s' sub'
  end.

(** [s.includes(sub)] *)
Fixpoint includes (s sub : string) : bool :=
  startsWith s sub ||
  match s with
  | EmptyString => false
  | String _ s' => includes s' sub
  end.

(** White space and line terminators of the ASCII range:
    TAB, LF, VT, FF, CR and SP. *)
Definition isWhiteSpace (c : ascii) : bool :=
  let n := nat_of_ascii c in
  (Nat.leb 9 n && Nat.leb n 13) || Nat.eqb n 32.

Fixpoint trimStart (s : string) : string :=
  match s with
  | EmptyString => EmptyString
  | String c s' => if isWhiteSpace c then trimStart s' else s
  end.

Fixpoint trimEnd (s : string) : string :=
  match s with
  | EmptyString => EmptyString
  | String c s' =>
      match trimEnd s' with
      | EmptyString => if isWhiteSpace c then EmptyString else String c EmptyString
      | r => String c r
      end
  end.

(** [s.trim()], on a string of ASCII characters. *)
Definition trim (s : string) : string := trimEnd (trimStart s).

(** Truthiness of a string: only the empty string is falsy. *)
Definition truthy (s : string) : bool :=
  match s with EmptyString => false | _ => true end.

(** [n.toString()] for an array index. *)
Definition toString (n : nat) : string :=
  NilEmpty.string_of_uint (Nat.to_uint n).

(** [xs.map((x, i) => f x i)], with the running index. *)
Fixpoint mapi_from {A B} (i : nat) (f : A -> nat -> B) (xs : list A) : list B :=
  match xs with
  | [] => []
  | x :: xs' => f x i :: mapi_from (S i) f xs'
  end.

Definition mapi {A B} (f : A -> nat -> B) (xs : list A) : list B :=
  mapi_from 0 f xs.

(** The specification-side notions the claims are phrased with. *)

(** [sub] occurs in [s] as a contiguous block. *)
Definition substringOf (sub s : string) : Prop :=
  exists pre post, s = pre +:+ sub +:+ post.

(** [s] contains [word] in some letter case, at some position. *)
Definition containsAnyCase (word s : string) : Prop :=
  exists pre mid post, s = pre +:+ mid +:+ post /\ toLowerCase mid = word.

(** Every character of [s] is white space. *)
Fixpoint allWhite (s : string) : bool :=
  match s with
  | EmptyString => true
  | String c s' => isWhiteSpace c && allWhite s'
  end.

(** Every character of [s] is in the ASCII range.  On such a string one
    character is one UTF-16 code unit, [String.prototype.trim] strips exactly
    the six characters of [isWhiteSpace] and [String.prototype.toLowerCase]
    folds exactly A-Z: it is where [trim] and [toLowerCase] above coincide
    with JavaScript's.  Outside it they do not (U+00A0 is white space to
    JavaScript, U+212A lowercases to k), so what is stated through them about
    typed text is stated for ASCII text. *)
Fixpoint isASCII (s : string) : bool :=
  match s with
  | EmptyString => true
  | String c s' => Nat.ltb (nat_of_ascii c) 128 && isASCII s'
  end.

End JS.

(** ** types.ts *)

Module ViewState.
Inductive t := PROFILE | PROJECTS | EDUCATION | SKILLS | TERMINAL | SEARCH.

Global Instance eq_dec : EqDecision t.
Proof. solve_decision. Defined.
End ViewState.

Record Project := {
  title : string;
  description : string;
  tech : list string;
  type : string
}.

Record Education := {
  degree : string;
  school : string;
  year : string;
  score : string;
  details : option (list string)
}.

Record Certificate := {
  name : string;
  icon : string
}.

Inductive Role := user | model.

Record ChatMessage := {
  role : Role;
  text : string;
  timestamp : Z
}.

Record SkillMetric := {
  subject : string;
  A : Z;
  fullMark : Z
}.

(** ** constants.ts *)

Module RESUME_DATA.
Definition name : string := "Anubhav Kumar".
Definition title : string := "M.Tech | AI Researcher & Frontend Engineer".
Definition email : string := "anubhavfarswal@gmail.com".
Definition phone : string := "6398011321".
Definition location : string := "New Delhi, Delhi, 110045, IN".
Definition linkedin : string := "Anubhav Kumar".
Definition summary : string := "M.Tech candidate at Bennett University bridging Machine Learning research with Front-End development. I specialize in integrating complex Transformer models into responsive web interfaces, creating seamless, end-to-end applications that make advanced data intelligence accessible and user-friendly.".
End RESUME_DATA.

Definition PROJECTS : list Project := [
  {| title := "High-Precision Textual Verification System";
     type := "AI / BERT-Family Models";
     description := "Designed a high-precision verification system leveraging BERT, ROBERTa, and DeBERTa for advanced text classification. Integrated these Transformer models into a responsive front-end interface, enabling real-time credibility assessment and seamless user interaction.";
     tech := ["BERT"; "ROBERTa"; "Python"; "React"; "ML"] |};
  {| title := "End-to-End Neural Text Analytics Platform";
     type := "Full Stack / Real-Time UI";
     description := "Developed an end-to-end platform using BERT and ROBERTa for advanced text analytics. Engineered a real-time, responsive UI to visualize model insights, effectively bridging complex ML back ends with intuitive front-end design.";
     tech := ["Neural Networks"; "Data Viz"; "TypeScript"; "UI/UX"] |};
  {| title := "Cross-Platform Component Library";
     type := "Frontend Infrastructure";
     description := "Developed a library of reusable, responsive UI components optimized for high-volume data visualization. Built to ensure seamless performance across platforms, providing a consistent interface for complex analytical outputs.";
     tech := ["React"; "Component Lib"; "Performance"; "Design System"] |}
].

Definition EDUCATION_HISTORY : list Education := [
  {| degree := "Master of Technology (M.Tech)";
     school := "Bennett University";
     year := "08/2024 – Present";
     score := "GPA: 7.74";
     details := Some [
       "Specialization in Computer Science Engineering";
       "Research focus: Neural Networks & Transformer Models";
       "Advanced AI Algorithms & Implementation" ] |};
  {| degree := "Master of Computer Applications";
     school := "Chandigarh University";
     year := "2022 – 2024";
     score := "GPA: 6.91";
     details := Some [
       "Core Computing & Software Architectures";
       "Full Stack Development Methodologies";
       "Cloud Computing & Database Systems" ] |};
  {| degree := "B.Sc. in Computer Science (Honours)";
     school := "Meerut college";
     year := "2018 – 2021";
     score := "GPA: 6.14";
     details := Some [
       "Foundations of Computer Science";
       "Data Structures & Algorithms Analysis";
       "System Programming & OS Concepts" ] |}
].

Definition CERTIFICATES : list Certificate := [
  {| name := "Digital Image & Video Processing"; icon := "image" |};
  {| name := "Generative AI: Intro & Applications"; icon := "psychology" |};
  {| name := "Databases & SQL for Data Science"; icon := "database" |};
  {| name := "Computer Networks Security"; icon := "security" |};
  {| name := "NLP with Classification"; icon := "translate" |};
  {| name := "Python Data Structures"; icon := "code" |}
].

Definition SKILL_METRICS : list SkillMetric := [
  {| subject := "Python (AI)"; A := 95; fullMark := 100 |};
  {| subject := "C++"; A := 80; fullMark := 100 |};
  {| subject := "Java"; A := 75; fullMark := 100 |};
  {| subject := "Node.js"; A := 85; fullMark := 100 |};
  {| subject := "JS / TS"; A := 90; fullMark := 100 |};
  {| subject := "React / Next"; A := 92; fullMark := 100 |};
  {| subject := "HTML / CSS"; A := 95; fullMark := 100 |};
  {| subject := "Dart"; A := 70; fullMark := 100 |};
  {| subject := "Git"; A := 88; fullMark := 100 |}
].

Definition CORE_SKILLS : list string := map subject SKILL_METRICS.

Definition INTERESTS : list string := [
  "AI Research"; "UI/UX Trends"; "Strategic Gaming"; "Open-Source"; "Traveling"
].

(** ** App: view state, search and navigation *)

Module Theme.
Record t := { name : string; value : string; hex : string }.
End Theme.

Definition THEMES : list Theme.t := [
  {| Theme.name := "NEON_CYAN"; Theme.value := "0 229 255"; Theme.hex := "#00e5ff" |};
  {| Theme.name := "MATRIX_GRN"; Theme.value := "0 255 65"; Theme.hex := "#00ff41" |};
  {| Theme.name := "WARN_ORNG"; Theme.value := "255 145 0"; Theme.hex := "#ff9100" |};
  {| Theme.name := "CRIT_RED"; Theme.value := "255 0 60"; Theme.hex := "#ff003c" |}
].

Module App.
Import JS.

Record SearchResults := {
  projects : list Project;
  education : list Education;
  skills : list SkillMetric
}.

(** The [useState] cells of the [App] component. *)
Record State := {
  activeView : ViewState.t;
  isLoaded : bool;
  selectedProject : option Project;
  sessionTime : Z;
  currentTheme : Theme.t;
  showSettings : bool;
  searchQuery : string;
  searchResults : SearchResults
}.

Definition initial : State := {|
  activeView := ViewState.PROFILE;
  isLoaded := false;
  selectedProject := None;
  sessionTime := 0;
  currentTheme := {| Theme.name := "NEON_CYAN"; Theme.value := "0 229 255"; Theme.hex := "#00e5ff" |};
  showSettings := false;
  searchQuery := "";
  searchResults := {| projects := []; education := []; skills := [] |}
|}.

Definition setActiveView (v : ViewState.t) (s : State) : State :=
  {| activeView := v; isLoaded := isLoaded s; selectedProject := selectedProject s;
     sessionTime := sessionTime s; currentTheme := currentTheme s;
     showSettings := showSettings s; searchQuery := searchQuery s;
     searchResults := searchResults s |}.

Definition setIsLoaded (b : bool) (s : State) : State :=
  {| activeView := activeView s; isLoaded := b; selectedProject := selectedProject s;
     sessionTime := sessionTime s; currentTheme := currentTheme s;
     showSettings := showSettings s; searchQuery := searchQuery s;
     searchResults := searchResults s |}.

Definition setSelectedProject (p : option Project) (s : State) : State :=
  {| activeView := activeView s; isLoaded := isLoaded s; selectedProject := p;
     sessionTime := sessionTime s; currentTheme := currentTheme s;
     showSettings := showSettings s; searchQuery := searchQuery s;
     searchResults := searchResults s |}.

Definition setSessionTime (f : Z -> Z) (s : State) : State :=
  {| activeView := activeView s; isLoaded := isLoaded s; selectedProject := selectedProject s;
     sessionTime := f (sessionTime s); currentTheme := currentTheme s;
     showSettings := showSettings s; searchQuery := searchQuery s;
     searchResults := searchResults s |}.

Definition setCurrentTheme (th : Theme.t) (s : State) : State :=
  {| activeView := activeView s; isLoaded := isLoaded s; selectedProject := selectedProject s;
     sessionTime := sessionTime s; currentTheme := th;
     showSettings := showSettings s; searchQuery := searchQuery s;
     searchResults := searchResults s |}.

Definition setShowSettings (b : bool) (s : State) : State :=
  {| activeView := activeView s; isLoaded := isLoaded s; selectedProject := selectedProject s;
     sessionTime := sessionTime s; currentTheme := currentTheme s;
     showSettings := b; searchQuery := searchQuery s;
     searchResults := searchResults s |}.

Definition setSearchQuery (q : string) (s : State) : State :=
  {| activeView := activeView s; isLoaded := isLoaded s; selectedProject := selectedProject s;
     sessionTime := sessionTime s; currentTheme := currentTheme s;
     showSettings := showSettings s; searchQuery := q;
     searchResults := searchResults s |}.

Definition setSearchResults (r : SearchResults) (s : State) : State :=
  {| activeView := activeView s; isLoaded := isLoaded s; selectedProject := selectedProject s;
     sessionTime := sessionTime s; currentTheme := currentTheme s;
     showSettings := showSettings s; searchQuery := searchQuery s;
     searchResults := r |}.

Definition changeTheme (theme : Theme.t) (s : State) : State :=
  setShowSettings false (setCurrentTheme theme s).

(** The three callbacks handed to [filter] in [handleSearch]. *)
Definition projectMatches (lowerQuery : string) (p : Project) : bool :=
  includes (toLowerCase (title p)) lowerQuery ||
  includes (toLowerCase (description p)) lowerQuery ||
  existsb (fun t => includes (toLowerCase t) lowerQuery) (tech p).

(** [edu.details?.some(...)] is [undefined], hence falsy, without details. *)
Definition educationMatches (lowerQuery : string) (edu : Education) : bool :=
  includes (toLowerCase (degree edu)) lowerQuery ||
  includes (toLowerCase (school edu)) lowerQuery ||
  match details edu with
  | Some ds => existsb (fun d => includes (toLowerCase d) lowerQuery) ds
  | None => false
  end.

Definition skillMatches (lowerQuery : string) (s : SkillMetric) : bool :=
  includes (toLowerCase (subject s)) lowerQuery.

(** [handleSearch], on the value [e.target.value] of the change event.
    [activeView] is read from the render the handler closes over. *)
Definition handleSearch (query : string) (s : State) : State :=
  let s1 := setSearchQuery query s in
  if decide (trim query = "") then
    if decide (activeView s = ViewState.SEARCH)
    then setActiveView ViewState.PROFILE s1
    else s1
  else
    let s2 :=
      if decide (activeView s <> ViewState.SEARCH)
      then setActiveView ViewState.SEARCH s1
      else s1 in
    let lowerQuery := toLowerCase query in
    let projects := List.filter (projectMatches lowerQuery) PROJECTS in
    let education := List.filter (educationMatches lowerQuery) EDUCATION_HISTORY in
    let skills := List.filter (skillMatches lowerQuery) SKILL_METRICS in
    setSearchResults
      {| projects := projects; education := education; skills := skills |} s2.

Definition handleNavClick (view : ViewState.t) (s : State) : State :=
  if decide (view = activeView s) then s
  else setSearchQuery "" (setActiveView view s).

(** The targets of the five [NavButton]s of the sidebar. *)
Definition navButtons : list ViewState.t :=
  [ViewState.PROFILE; ViewState.PROJECTS; ViewState.EDUCATION;
   ViewState.SKILLS; ViewState.TERMINAL].

(** What [SearchResultsView] shows the Return to Profile button on:
    a query that is a truthy string and three empty result lists. *)
Definition noResultsShown (s : State) : bool :=
  truthy (searchQuery s) &&
  negb (bool_decide (0 < length (projects (searchResults s)))%nat
        || bool_decide (0 < length (education (searchResults s)))%nat
        || bool_decide (0 < length (skills (searchResults s)))%nat).

(** One user or timer event of the [App] component. *)
Inductive step : State -> State -> Prop :=
| step_search q s :
    step s (handleSearch q s)
| step_nav v s :
    In v navButtons -> step s (handleNavClick v s)
| step_return_to_profile s :
    activeView s = ViewState.SEARCH -> noResultsShown s = true ->
    step s (setActiveView ViewState.PROFILE s)
| step_select_project p s :
    step s (setSelectedProject p s)
| step_boot s :
    step s (setIsLoaded true s)
| step_tick s :
    step s (setSessionTime (fun t => t + 1) s)
| step_theme th s :
    In th THEMES -> step s (changeTheme th s)
| step_settings s :
    step s (setShowSettings (negb (showSettings s)) s).

(** The states the component can be in: [initial] and what events lead to. *)
Inductive reachable : State -> Prop :=
| reachable_initial : reachable initial
| reachable_step s s' : reachable s -> step s s' -> reachable s'.


(** The matching rule in the words of the specification: the lowercased
    query is a substring of a lowercased searchable field. *)
Definition matchesField (query field : string) : Prop :=
  substringOf (toLowerCase query) (toLowerCase field).

Definition projectMatchesSpec (query : string) (p : Project) : Prop :=
  matchesField query (title p) \/
  matchesField query (description p) \/
  exists t, In t (tech p) /\ matchesField query t.

Definition educationMatchesSpec (query : string) (edu : Education) : Prop :=
  matchesField query (degree edu) \/
  matchesField query (school edu) \/
  exists ds d, details edu = Some ds /\ In d ds /\ matchesField query d.

Definition skillMatchesSpec (query : string) (sk : SkillMetric) : Prop :=
  matchesField query (subject sk).

End App.


(** ** TerminalView: the command interpreter *)

Module TerminalView.
Import JS.

(** The [useState] cells of the [TerminalView] component. *)
Record State := {
  history : list string;
  input : string
}.

Definition initial : State := {|
  history := ["> SYSTEM INITIALIZED"; "> WELCOME TO NEURAL CLI V1.0";
              "> TYPE " +:+ dquote +:+ "help" +:+ dquote +:+ " FOR COMMANDS"];
  input := ""
|}.

Definition setInput (v : string) (s : State) : State :=
  {| history := history s; input := v |}.

(** [setHistory(h); setInput('')] *)
Definition commit (h : list string) : State :=
  {| history := h; input := "" |}.

(** [handleCommand], on the [key] of the keyboard event. *)
Definition handleCommand (key : string) (s : State) : State :=
  if decide (key = "Enter") then
    let cmd := toLowerCase (trim (input s)) in
    let newHistory := history s ++ ["> " +:+ input s] in
    if decide (cmd = "help") then
      commit (newHistory ++ [
        "AVAILABLE COMMANDS:";
        "  ls        - List all projects";
        "  whoami    - Display profile summary";
        "  skills    - List core competencies";
        "  contact   - Display contact info";
        "  clear     - Clear terminal"])
    else if decide (cmd = "ls") then
      commit ((newHistory ++ ["PROJECTS DIRECTORY:"]) ++
              mapi (fun p i => "  [" +:+ toString i +:+ "] " +:+ title p
                               +:+ " (" +:+ type p +:+ ")") PROJECTS)
    else if decide (cmd = "whoami") then
      commit (newHistory ++ [
        "USER: " +:+ RESUME_DATA.name;
        "TITLE: " +:+ RESUME_DATA.title;
        "BIO: " +:+ RESUME_DATA.summary])
    else if decide (cmd = "skills") then
      commit (newHistory ++
              "CORE SKILLS:" :: map (fun s => "  - " +:+ s) CORE_SKILLS)
    else if decide (cmd = "contact") then
      commit (newHistory ++ [
        "EMAIL: " +:+ RESUME_DATA.email;
        "PHONE: " +:+ RESUME_DATA.phone;
        "LOC: " +:+ RESUME_DATA.location])
    else if decide (cmd = "clear") then
      {| history := ["> CONSOLE CLEARED"]; input := "" |}
    else
      commit (newHistory ++ [
        "ERROR: Command " +:+ dquote +:+ cmd +:+ dquote
          +:+ " not recognized. Type " +:+ dquote +:+ "help" +:+ dquote +:+ "."])
  else s.

(** Typing [line] into the prompt and pressing Enter. *)
Definition execute (line : string) (s : State) : State :=
  handleCommand "Enter" (setInput line s).

End TerminalView.

(** ** NeuralChatWidget: the assistant response pipeline *)

(** How an evaluation ends: with a value or with a thrown error. *)
Inductive Completion (T : Type) :=
  | Normal (v : T)
  | Throw (e : string).
Arguments Normal {T} v.
Arguments Throw {T} e.

Module NeuralChatWidget.
Import JS.

(** What [response.response?.text()] does once the promise has resolved. *)
Inductive TextCall :=
  | TextReturns (t : string)
  | TextThrows (e : string).

(** How [await model.generateContent(fullPrompt)] settles: the promise
    rejects, or it resolves to an object whose [response] may be missing. *)
Inductive GenerateResult :=
  | Rejected (e : string)
  | Resolved (response : option TextCall).

(** What [handleSend] leaves on the event loop when it returns or suspends. *)
Inductive Task :=
  | SimulationTimeout (ms : Z) (text : string)
  | GenerateContent (fullPrompt : string) (input : string)
  | FallbackTimeout (ms : Z) (input : string).

(** The prompts a task sends to the generative endpoint. *)
Definition networkRequests (t : option Task) : list string :=
  match t with
  | Some (GenerateContent fullPrompt _) => [fullPrompt]
  | _ => []
  end.

(** The [useState] cells of the widget that [handleSend] reads or writes. *)
Record State := {
  input : string;
  loading : bool;
  messages : list ChatMessage
}.

Definition greeting : string :=
  "Neural Link Established. I am Anubhav's automated assistant. Ask me about his projects, skills, or research.".

Definition initial (now : Z) : State := {|
  input := "";
  loading := false;
  messages := [{| role := model; text := greeting; timestamp := now |}]
|}.

Definition setInput (v : string) (s : State) : State :=
  {| input := v; loading := loading s; messages := messages s |}.

Definition setLoading (b : bool) (s : State) : State :=
  {| input := input s; loading := b; messages := messages s |}.

(** [setMessages(prev => [...prev, m])] *)
Definition appendMessage (m : ChatMessage) (s : State) : State :=
  {| input := input s; loading := loading s; messages := messages s ++ [m] |}.

Definition projectsReply : string :=
  "Anubhav has worked on key projects like the High-Precision Textual Verification System using BERT/RoBERTa and a Cross-Platform Component Library.".
Definition skillsReply : string :=
  "Core competencies include Python (AI), React, Node.js, and Transformer models (BERT, RoBERTa).".
Definition contactReply : string :=
  "You can reach Anubhav at " +:+ RESUME_DATA.email +:+ ".".
Definition helloReply : string :=
  "Greetings. Accessing local database...".
Definition offlineReply : string :=
  "I am currently running in offline mode. I can answer basic questions about projects and skills, but live generative capabilities are disabled.".
Definition corruptedReply : string :=
  "Data corrupted. Please retry.".

(** Offline Simulation Logic *)
Definition getSimulationResponse (query : string) : string :=
  let lowerInput := toLowerCase query in
  if includes lowerInput "project" then projectsReply
  else if includes lowerInput "skill" || includes lowerInput "tech" then skillsReply
  else if includes lowerInput "contact" || includes lowerInput "email" then contactReply
  else if includes lowerInput "hello" || includes lowerInput "hi" then helloReply
  else offlineReply.

(** The body of the [try] block after the [await]:
    [response.response?.text() || "Data corrupted. Please retry."]. *)
Definition tryReply (r : GenerateResult) : Completion string :=
  match r with
  | Rejected e => Throw e
  | Resolved None => Normal corruptedReply
  | Resolved (Some (TextThrows e)) => Throw e
  | Resolved (Some (TextReturns t)) => Normal (if truthy t then t else corruptedReply)
  end.

Section Widget.

(** [import.meta.env?.VITE_API_KEY], absent or a string. *)
Variable VITE_API_KEY : option string.

(** [JSON.stringify({ RESUME_DATA, PROJECTS, EDUCATION_HISTORY, CORE_SKILLS })] *)
Variable contextData : string.

Definition apiKey : string :=
  match VITE_API_KEY with
  | Some k => if truthy k then k else "demo_key"
  | None => "demo_key"
  end.

Definition nl : string := String "010"%char "".

Definition systemPrompt : string :=
  "You are a high-tech AI assistant for Anubhav Kumar's portfolio. " +:+ nl +:+
  "          Use the following JSON data to answer questions about him: " +:+ contextData +:+ "." +:+ nl +:+
  "          " +:+ nl +:+
  "          Guidelines:" +:+ nl +:+
  "          1. Be concise and professional but maintain a subtle sci-fi/technological persona (e.g., use phrases like "
    +:+ dquote +:+ "Data retrieved" +:+ dquote +:+ ", " +:+ dquote +:+ "Analyzing..." +:+ dquote +:+ ")." +:+ nl +:+
  "          2. If the user asks about something not in the data, state that the information is encrypted or unavailable." +:+ nl +:+
  "          3. Format your answers in plain text, but use bullet points if listing items." +:+ nl +:+
  "          4. Keep responses under 50 words unless asked for a detailed explanation.".

(** [handleSend] up to its first suspension point, at clock reading [now]:
    the state after its setter calls and the task it leaves behind. *)
Definition handleSend (now : Z) (s : State) : State * option Task :=
  if negb (truthy (trim (input s))) || loading s then (s, None)
  else
    let userMsg := {| role := user; text := input s; timestamp := now |} in
    let s1 := setLoading true (setInput "" (appendMessage userMsg s)) in
    if decide (apiKey = "demo_key") then
      (s1, Some (SimulationTimeout 600 (text userMsg)))
    else
      let fullPrompt := systemPrompt +:+ nl +:+ nl +:+ "User question: " +:+ input s in
      (s1, Some (GenerateContent fullPrompt (input s))).

(** The callback of the 600 ms timer of the offline branch. *)
Definition simulationTimeout (now : Z) (text : string) (s : State) : State :=
  let reply := getSimulationResponse text in
  setLoading false
    (appendMessage {| role := model; text := reply; timestamp := now |} s).

(** [handleSend] from the [await] on: the rest of [try], then [catch] and
    [finally].  The result is the completion of the [async] function. *)
Definition generateSettled (now : Z) (input : string) (r : GenerateResult)
    (s : State) : Completion (State * option Task) :=
  match tryReply r with
  | Normal reply =>
      let s1 := appendMessage {| role := model; text := reply; timestamp := now |} s in
      Normal (setLoading false s1, None)
  | Throw error =>
      Normal (setLoading false s, Some (FallbackTimeout 1500 input))
  end.

(** The callback of the 1500 ms timer set in [catch]. *)
Definition fallbackTimeout (now : Z) (input : string) (s : State) : State :=
  let reply := getSimulationResponse input in
  appendMessage {| role := model; text := reply; timestamp := now |} s.

(** Running a pending task at clock reading [now]; [r] is how the API call
    settles when the task is the awaited call. *)
Definition settle (now : Z) (t : Task) (r : GenerateResult) (s : State)
    : Completion (State * option Task) :=
  match t with
  | SimulationTimeout _ text => Normal (simulationTimeout now text s, None)
  | GenerateContent _ input => generateSettled now input r s
  | FallbackTimeout _ input => Normal (fallbackTimeout now input s, None)
  end.

(** One send with nothing else happening in between: [handleSend] at [t0],
    then the task it left at [t1], then the task that one left at [t2]. *)
Definition respond (t0 t1 t2 : Z) (r : GenerateResult) (s : State)
    : Completion State :=
  match handleSend t0 s with
  | (s0, None) => Normal s0
  | (s0, Some task1) =>
      match settle t1 task1 r s0 with
      | Throw e => Throw e
      | Normal (s1, None) => Normal s1
      | Normal (s1, Some task2) =>
          match settle t2 task2 r s1 with
          | Throw e => Throw e
          | Normal (s2, _) => Normal s2
          end
      end
  end.

End Widget.

End NeuralChatWidget.


(** ** Further JavaScript primitives *)

Module JSLib.
Import JS.

(** [s.slice(0, k)]: the first [k] characters, or all of [s] if shorter. *)
Fixpoint slice0 (s : string) (k : nat) {struct k} : string :=
  match k, s with
  | O, _ => EmptyString
  | S _, EmptyString => EmptyString
  | S k', String c s' => String c (slice0 s' k')
  end.

(** The filler of [padStart]: [pad] over and over, cut at [n] characters.
    [cur] is what is left of the copy being written. *)
Fixpoint filler (n : nat) (pad cur : string) : string :=
  match n with
  | O => EmptyString
  | S n' =>
      match cur with
      | String c rest => String c (filler n' pad rest)
      | EmptyString =>
          match pad with
          | String c rest => String c (filler n' pad rest)
          | EmptyString => EmptyString
          end
      end
  end.

(** [s.padStart(targetLength, padString)] *)
Definition padStart (s : string) (targetLength : nat) (padString : string) : string :=
  if Nat.leb targetLength (String.length s) then s
  else if decide (padString = "") then s
  else filler (targetLength - String.length s) padString padString +:+ s.

(** [n.toString()] for an integer-valued number. *)
Definition numberToString (n : Z) : string :=
  NilZero.string_of_int (Z.to_int n).

(** [String.fromCharCode(b)] for an element of a [Uint8Array]. *)
Definition fromCharCode (b : Byte.byte) : ascii := ascii_of_byte b.

(** [s.charCodeAt(i)] stored into a [Uint8Array]; the NaN of an index out
    of range is stored as 0. *)
Definition charCodeAt (s : string) (i : nat) : Byte.byte :=
  match String.get i s with
  | Some c => byte_of_ascii c
  | None => Byte.x00
  end.

End JSLib.

(** ** window.btoa and window.atob *)

Module Base64.

(** Six bits, most significant first. *)
Inductive Sextet := Six (b5 b4 b3 b2 b1 b0 : bool).

Definition alphabet : list ascii :=
  String.list_ascii_of_string
    "ABCDEFGHIJKLMNOPQRSTUVWXYZabcdefghijklmnopqrstuvwxyz0123456789+/".

Definition sextetIndex (s : Sextet) : nat :=
  let 'Six b5 b4 b3 b2 b1 b0 := s in
  (32 * Nat.b2n b5 + 16 * Nat.b2n b4 + 8 * Nat.b2n b3
   + 4 * Nat.b2n b2 + 2 * Nat.b2n b1 + Nat.b2n b0)%nat.

Definition indexSextet (i : nat) : Sextet :=
  Six (Nat.testbit i 5) (Nat.testbit i 4) (Nat.testbit i 3)
      (Nat.testbit i 2) (Nat.testbit i 1) (Nat.testbit i 0).

Definition sextetChar (s : Sextet) : ascii :=
  nth (sextetIndex s) alphabet "="%char.

(** The place of a character in the alphabet, if it has one. *)
Definition charSextet (c : ascii) : option Sextet :=
  let n := nat_of_ascii c in
  if Nat.leb 65 n && Nat.leb n 90 then Some (indexSextet (n - 65))
  else if Nat.leb 97 n && Nat.leb n 122 then Some (indexSextet (n - 97 + 26))
  else if Nat.leb 48 n && Nat.leb n 57 then Some (indexSextet (n - 48 + 52))
  else if Nat.eqb n 43 then Some (indexSextet 62)
  else if Nat.eqb n 47 then Some (indexSextet 63)
  else None.

(** The four sextets of a group of three bytes. *)
Definition sextet1 (a : ascii) : Sextet :=
  let 'Ascii _ _ a2 a3 a4 a5 a6 a7 := a in Six a7 a6 a5 a4 a3 a2.
Definition sextet2 (a b : ascii) : Sextet :=
  let 'Ascii a0 a1 _ _ _ _ _ _ := a in
  let 'Ascii _ _ _ _ b4 b5 b6 b7 := b in Six a1 a0 b7 b6 b5 b4.
Definition sextet3 (b c : ascii) : Sextet :=
  let 'Ascii b0 b1 b2 b3 _ _ _ _ := b in
  let 'Ascii _ _ _ _ _ _ c6 c7 := c in Six b3 b2 b1 b0 c7 c6.
Definition sextet4 (c : ascii) : Sextet :=
  let 'Ascii c0 c1 c2 c3 c4 c5 _ _ := c in Six c5 c4 c3 c2 c1 c0.

(** The three bytes of a group of four sextets. *)
Definition byte1 (p q : Sextet) : ascii :=
  let 'Six p5 p4 p3 p2 p1 p0 := p in
  let 'Six q5 q4 _ _ _ _ := q in Ascii q4 q5 p0 p1 p2 p3 p4 p5.
Definition byte2 (q r : Sextet) : ascii :=
  let 'Six _ _ q3 q2 q1 q0 := q in
  let 'Six r5 r4 r3 r2 _ _ := r in Ascii r2 r3 r4 r5 q0 q1 q2 q3.
Definition byte3 (r t : Sextet) : ascii :=
  let 'Six _ _ _ _ r1 r0 := r in
  let 'Six t5 t4 t3 t2 t1 t0 := t in Ascii t0 t1 t2 t3 t4 t5 r0 r1.

(** [btoa(s)] on a binary string: three bytes give four characters, and a
    last group of one or two bytes is zero-filled and padded with [=]. *)
Fixpoint btoa (s : string) : string :=
  match s with
  | EmptyString => EmptyString
  | String a EmptyString =>
      String (sextetChar (sextet1 a))
        (String (sextetChar (sextet2 a Ascii.zero)) "==")
  | String a (String b EmptyString) =>
      String (sextetChar (sextet1 a))
        (String (sextetChar (sextet2 a b))
           (String (sextetChar (sextet3 b Ascii.zero)) "="))
  | String a (String b (String c rest)) =>
      String (sextetChar (sextet1 a))
        (String (sextetChar (sextet2 a b))
           (String (sextetChar (sextet3 b c))
              (String (sextetChar (sextet4 c)) (btoa rest))))
  end.

(** ASCII whitespace as [atob] strips it: TAB, LF, FF, CR and SP. *)
Definition isAsciiWhitespace (c : ascii) : bool :=
  let n := nat_of_ascii c in
  Nat.eqb n 9 || Nat.eqb n 10 || Nat.eqb n 12 || Nat.eqb n 13 || Nat.eqb n 32.

Fixpoint stripWhitespace (s : string) : string :=
  match s with
  | EmptyString => EmptyString
  | String c s' =>
      if isAsciiWhitespace c then stripWhitespace s'
      else String c (stripWhitespace s')
  end.

(** Removing one or two [=] at the very end. *)
Fixpoint dropPadding (s : string) : string :=
  match s with
  | EmptyString => EmptyString
  | String c s' =>
      if Ascii.eqb c "="
         && (String.eqb s' "" || String.eqb s' "=")
      then EmptyString
      else String c (dropPadding s')
  end.

(** Decoding the characters four at a time; a last group of two or three
    characters gives one or two bytes, its spare bits are dropped.  [None]
    when a character is outside the alphabet or a single one is left over. *)
Fixpoint decodeChars (s : string) : option string :=
  match s with
  | EmptyString => Some EmptyString
  | String _ EmptyString => None
  | String c1 (String c2 EmptyString) =>
      p ← charSextet c1; q ← charSextet c2;
      Some (String (byte1 p q) EmptyString)
  | String c1 (String c2 (String c3 EmptyString)) =>
      p ← charSextet c1; q ← charSextet c2; r ← charSextet c3;
      Some (String (byte1 p q) (String (byte2 q r) EmptyString))
  | String c1 (String c2 (String c3 (String c4 rest))) =>
      p ← charSextet c1; q ← charSextet c2; r ← charSextet c3;
      t ← charSextet c4; out ← decodeChars rest;
      Some (String (byte1 p q) (String (byte2 q r) (String (byte3 r t) out)))
  end.

(** [atob(data)]; [None] stands for the InvalidCharacterError it throws. *)
Definition atob (data : string) : option string :=
  let d := stripWhitespace data in
  let d := if Nat.eqb (String.length d mod 4) 0 then dropPadding d else d in
  decodeChars d.

End Base64.

(** ** Audio helper functions *)

Module AudioHelpers.
Import JSLib Base64.

(** [encode(bytes)]: the loop appends one character per byte, then [btoa]. *)
Definition encode (bytes : list Byte.byte) : string :=
  let binary :=
    fold_left (fun binary b => binary +:+ String (fromCharCode b) EmptyString)
              bytes EmptyString in
  btoa binary.

(** [decode(base64)]: [atob], then one array element per character. *)
Definition decode (base64 : string) : Completion (list Byte.byte) :=
  match atob base64 with
  | None => Throw "InvalidCharacterError"
  | Some binaryString =>
      let len := String.length binaryString in
      Normal (map (fun i => charCodeAt binaryString i) (seq 0 len))
  end.

End AudioHelpers.

(** ** App: the uptime display *)

Module AppClock.
Import JSLib.

(** [formatTime(seconds)], on an integer number of seconds:
    [Math.floor(seconds / 60)] and [seconds % 60], each padded to two. *)
Definition formatTime (seconds : Z) : string :=
  let mins := seconds / 60 in
  let secs := Z.rem seconds 60 in
  padStart (numberToString mins) 2 "0" +:+ ":"
    +:+ padStart (numberToString secs) 2 "0".

(** The decimal digit [d] as a character. *)
Definition digit (d : Z) : ascii := ascii_of_nat (48 + Z.to_nat d).

End AppClock.

(** ** SearchResultsView: what the Search view shows *)

Module SearchResultsView.
Import JS App.

(** The three filters of [handleSearch], as run on [query]. *)
Definition searchOf (query : string) : SearchResults :=
  let lowerQuery := toLowerCase query in
  {| projects := List.filter (projectMatches lowerQuery) PROJECTS;
     education := List.filter (educationMatches lowerQuery) EDUCATION_HISTORY;
     skills := List.filter (skillMatches lowerQuery) SKILL_METRICS |}.

(** A section of the result page; each is rendered only when not empty. *)
Inductive ResultSection :=
  | ProjectsDetected (ps : list Project)
  | CompetenciesFound (sks : list SkillMetric)
  | AcademicRecords (edus : list Education).

(** The three things the component can return. *)
Inductive Rendered :=
  | InitiatePrompt
  | NoMatchingEntities (query : string)
  | ResultPage (query : string) (sections : list ResultSection).

Definition nonEmpty {T} (l : list T) : bool := bool_decide (0 < length l)%nat.

Definition render (results : SearchResults) (query : string) : Rendered :=
  if negb (truthy query) then InitiatePrompt
  else
    let hasResults :=
      nonEmpty (projects results) || nonEmpty (education results)
      || nonEmpty (skills results) in
    if negb hasResults then NoMatchingEntities query
    else
      ResultPage query
        ((if nonEmpty (projects results)
          then [ProjectsDetected (projects results)] else []) ++
         (if nonEmpty (skills results)
          then [CompetenciesFound (skills results)] else []) ++
         (if nonEmpty (education results)
          then [AcademicRecords (education results)] else [])).

(** What [renderContent] hands to the component in the Search view. *)
Definition shown (s : State) : Rendered :=
  render (searchResults s) (searchQuery s).

(** The coupling the component keeps between the view and the query. *)
Definition searchViewInSync (s : State) : Prop :=
  activeView s = ViewState.SEARCH ->
  trim (searchQuery s) <> "" /\ searchResults s = searchOf (searchQuery s).

End SearchResultsView.

(** ** A session of the chat widget *)

Module ChatSession.
Import NeuralChatWidget.

(** The widget together with the tasks waiting on the event loop. *)
Record Config := {
  widget : State;
  pending : list Task
}.

(** Typing into the input, pressing send, and a pending task running:
    the [i]-th one, at clock reading [now]; [r] is how the API call settles
    when that task is the awaited call. *)
Inductive Event :=
  | Typed (v : string)
  | Sent (now : Z)
  | Fired (now : Z) (i : nat) (r : GenerateResult).

Section Session.
Variable VITE_API_KEY : option string.
Variable contextData : string.

Definition exec (cfg : Config) (ev : Event) : Config :=
  match ev with
  | Typed v => {| widget := setInput v (widget cfg); pending := pending cfg |}
  | Sent now =>
      let '(w, t) := handleSend VITE_API_KEY contextData now (widget cfg) in
      {| widget := w; pending := pending cfg ++ option_list t |}
  | Fired now i r =>
      match pending cfg !! i with
      | None => cfg
      | Some t =>
          match settle now t r (widget cfg) with
          | Normal (w, next) =>
              {| widget := w; pending := delete i (pending cfg) ++ option_list next |}
          | Throw _ => cfg
          end
      end
  end.

Definition run (events : list Event) (cfg : Config) : Config :=
  fold_left exec events cfg.

End Session.

(** The widget as mounted at clock reading [now]. *)
Definition start (now : Z) : Config :=
  {| widget := initial now; pending := [] |}.

Definition isRole (r : Role) (m : ChatMessage) : bool :=
  match r, role m with
  | user, user | model, model => true
  | _, _ => false
  end.

Definition countRole (r : Role) (ms : list ChatMessage) : nat :=
  length (List.filter (isRole r) ms).

End ChatSession.

(** ** SystemFooter: the telemetry log *)

Module SystemFooter.

Definition messages : list string := [
  "Analyzing neural weights...";
  "Optimizing rendering pipeline...";
  "Memory integrity: 99.8%";
  "Tracking user engagement...";
  "Encrypting data packets...";
  "Handshake verified...";
  "Garbage collection pending...";
  "Updating view matrix..."
].

(** [setLogs(prev => [line, ...prev].slice(0, 10))] *)
Definition pushLog (line : string) (prev : list string) : list string :=
  take 10 (line :: prev).

(** The two effects that write the log: the 3 s interval, which draws the
    index [k] of a message, and a change of the active view.  [time] is
    [new Date().toLocaleTimeString()]. *)
Inductive Event :=
  | Tick (time : string) (k : nat)
  | ViewChanged (time : string) (activeView : string).

(** The template literal of each effect; an index outside the array would
    print as [undefined]. *)
Definition line (ev : Event) : string :=
  match ev with
  | Tick time k =>
      "[" +:+ time +:+ "] SYSTEM_EVENT: " +:+ default "undefined" (messages !! k)
  | ViewChanged time activeView =>
      "[" +:+ time +:+ "] VIEW_CHANGED: Loading " +:+ activeView +:+ " module..."
  end.

Definition step (logs : list string) (ev : Event) : list string :=
  pushLog (line ev) logs.

Definition run (events : list Event) (logs : list string) : list string :=
  fold_left step events logs.

End SystemFooter.

(** ** RevealText and TypewriterParagraph: text revealed by an interval *)

Module RevealText.
Import JSLib.

(** [visibleText], the counter [i] of the effect's closure, and whether
    the interval is still set. *)
Record State := {
  visibleText : string;
  i : nat;
  running : bool
}.

(** When the start delay has elapsed and the interval is set. *)
Definition started : State :=
  {| visibleText := ""; i := 0; running := true |}.

(** One firing of the 30 ms interval. *)
Definition tick (text : string) (st : State) : State :=
  if running st then
    {| visibleText := slice0 text (i st + 1);
       i := i st + 1;
       running := negb (Nat.ltb (String.length text) (i st + 1)) |}
  else st.

(** The state after [n] firings. *)
Fixpoint after (text : string) (n : nat) : State :=
  match n with
  | O => started
  | S n' => tick text (after text n')
  end.

End RevealText.

Module TypewriterParagraph.

(** The text as JavaScript holds it: the sequence of its UTF-16 code units,
    which is what [text.length] counts and [text.slice] cuts (the paragraphs
    the component is given contain dashes outside the ASCII range). *)
Definition Text := list N.

(** [displayedText], the counter [charIndex] of the effect's closure, and
    whether the interval is still set. *)
Record State := {
  displayedText : Text;
  charIndex : nat;
  running : bool
}.

(** When [started] has been set and the second effect has set the interval. *)
Definition started : State :=
  {| displayedText := []; charIndex := 0; running := true |}.

(** One firing of the interval; [take k text] is [text.slice(0, k)]. *)
Definition tick (text : Text) (st : State) : State :=
  if running st then
    if Nat.ltb (charIndex st) (length text) then
      {| displayedText := take (charIndex st + 1) text;
         charIndex := charIndex st + 1;
         running := true |}
    else
      {| displayedText := displayedText st;
         charIndex := charIndex st;
         running := false |}
  else st.

(** The state after [n] firings. *)
Fixpoint after (text : Text) (n : nat) : State :=
  match n with
  | O => started
  | S n' => tick text (after text n')
  end.

End TypewriterParagraph.

(** * Properties *)

(** ** Strings *)

Section StringFacts.
Import JS.

Lemma startsWith_spec (s sub : string) :
  startsWith s sub = true <-> exists post, s = sub +:+ post.
Proof.
  revert s. induction sub as [|c sub IH]; intros s; simpl.
  - split; [intros _; by exists s | done].
  - destruct s as [|d s]; simpl.
    + split; [done | intros [post Hpost]; discriminate].
    + rewrite andb_true_iff, IH. split.
      * intros [Hcd [post ->]]. apply Ascii.eqb_eq in Hcd as ->. by exists post.
      * intros [post Hpost]. injection Hpost as -> ->.
        split; [apply Ascii.eqb_refl | by exists post].
Qed.

Lemma includes_spec (s sub : string) :
  includes s sub = true <-> substringOf sub s.
Proof.
  unfold substringOf. induction s as [|d s IH]; simpl.
  - rewrite orb_false_r, startsWith_spec. split.
    + intros [post Hpost]. by exists EmptyString, post.
    + intros [pre [post Hs]]. destruct pre; [by exists post | discriminate].
  - rewrite orb_true_iff, startsWith_spec, IH. split.
    + intros [[post Hpost] | [pre [post Hs]]].
      * by exists EmptyString, post.
      * exists (String d pre), post. simpl. by rewrite Hs.
    + intros [pre [post Hs]]. destruct pre as [|e pre]; simpl in Hs.
      * left. by exists post.
      * right. injection Hs as _ Hs. by exists pre, post.
Qed.


Lemma toLowerCase_app (s1 s2 : string) :
  toLowerCase (s1 +:+ s2) = toLowerCase s1 +:+ toLowerCase s2.
Proof. induction s1 as [|c s1 IH]; simpl; [done | by rewrite IH]. Qed.

(** A word occurring in any letter case is found by the lowercased test. *)
Lemma containsAnyCase_includes (word s : string) :
  containsAnyCase word s -> includes (toLowerCase s) word = true.
Proof.
  intros (pre & mid & post & -> & Hmid). apply includes_spec.
  exists (toLowerCase pre), (toLowerCase post).
  by rewrite !toLowerCase_app, Hmid.
Qed.

Lemma trimStart_allWhite (s : string) : allWhite (trimStart s) = allWhite s.
Proof.
  induction s as [|c s IH]; simpl; [done |].
  destruct (isWhiteSpace c) eqn:Hc; simpl; [done | by rewrite Hc].
Qed.

Lemma trimEnd_empty (s : string) : trimEnd s = "" <-> allWhite s = true.
Proof.
  induction s as [|c s IH]; simpl; [done |].
  destruct (trimEnd s) as [|d r] eqn:Hr.
  - destruct (isWhiteSpace c); simpl; [| done].
    split; [intros _; by apply IH | done].
  - split; [done |]. rewrite andb_true_iff. intros [_ Hs].
    by apply IH in Hs.
Qed.

Lemma trim_empty (s : string) : trim s = "" <-> allWhite s = true.
Proof. unfold trim. by rewrite trimEnd_empty, trimStart_allWhite. Qed.

Lemma allWhite_app (s1 s2 : string) :
  allWhite (s1 +:+ s2) = allWhite s1 && allWhite s2.
Proof.
  induction s1 as [|c s1 IH]; simpl; [done |].
  by rewrite IH, andb_assoc.
Qed.

Lemma allWhite_toLowerCase (s : string) :
  allWhite s = true -> toLowerCase s = s.
Proof.
  induction s as [|c s IH]; simpl; [done |].
  rewrite andb_true_iff. intros [Hc Hs]. rewrite (IH Hs). f_equal.
  destruct c as [[] [] [] [] [] [] [] []]; vm_compute in Hc |- *; congruence.
Qed.

(** A string holding a word with a letter in it is not blank. *)
Lemma containsAnyCase_not_blank (word s : string) :
  allWhite word = false -> containsAnyCase word s -> trim s <> "".
Proof.
  intros Hword (pre & mid & post & -> & Hmid). rewrite trim_empty.
  rewrite !allWhite_app. intros H.
  apply andb_true_iff in H as [_ H]. apply andb_true_iff in H as [Hw _].
  apply allWhite_toLowerCase in Hw as Hlow. congruence.
Qed.

End StringFacts.

(** ** Search engine and navigation *)

Section SearchFacts.
Import JS App.

Lemma matchesField_includes (q field : string) :
  includes (toLowerCase field) (toLowerCase q) = true <-> matchesField q field.
Proof. apply includes_spec. Qed.

Lemma projectMatches_spec (q : string) (p : Project) :
  projectMatches (toLowerCase q) p = true <-> projectMatchesSpec q p.
Proof.
  unfold projectMatches, projectMatchesSpec.
  rewrite !orb_true_iff, !matchesField_includes, existsb_exists.
  split.
  - intros [[H | H] | [t [Ht H]]]; [by left | by right; left |].
    right; right. exists t. by rewrite <- matchesField_includes.
  - intros [H | [H | [t [Ht H]]]]; [by left; left | by left; right |].
    right. exists t. by rewrite matchesField_includes.
Qed.

Lemma educationMatches_spec (q : string) (edu : Education) :
  educationMatches (toLowerCase q) edu = true <-> educationMatchesSpec q edu.
Proof.
  unfold educationMatches, educationMatchesSpec.
  rewrite !orb_true_iff, !matchesField_includes. split.
  - intros [[H | H] | H]; [by left | by right; left |].
    destruct (details edu) as [ds|]; [| done].
    apply existsb_exists in H as [d [Hd H]].
    right; right. exists ds, d. by rewrite <- matchesField_includes.
  - intros [H | [H | (ds & d & -> & Hd & H)]]; [by left; left | by left; right |].
    right. apply existsb_exists. exists d. by rewrite matchesField_includes.
Qed.

Lemma skillMatches_spec (q : string) (sk : SkillMetric) :
  skillMatches (toLowerCase q) sk = true <-> skillMatchesSpec q sk.
Proof. apply matchesField_includes. Qed.


(** What a blank query does: the query is stored, the Search view is left. *)
Lemma handleSearch_blank (q : string) (s : State) :
  trim q = "" ->
  handleSearch q s =
    {| activeView := if decide (activeView s = ViewState.SEARCH)
                     then ViewState.PROFILE else activeView s;
       isLoaded := isLoaded s; selectedProject := selectedProject s;
       sessionTime := sessionTime s; currentTheme := currentTheme s;
       showSettings := showSettings s; searchQuery := q;
       searchResults := searchResults s |}.
Proof.
  intros Hq. unfold handleSearch.
  destruct (decide (trim q = "")) as [_|]; [| done].
  by destruct (decide (activeView s = ViewState.SEARCH)).
Qed.











(** C10: a query that is empty or only white space leaves the stored
    results, and every other cell of the state, as they were; only the query
    is stored and the Search view, if active, gives way to Profile. *)
Theorem blank_query_keeps_results (q : string) (s : State) :
  trim q = "" ->
  let s' := handleSearch q s in
  searchResults s' = searchResults s /\
  searchQuery s' = q /\
  activeView s' = (if decide (activeView s = ViewState.SEARCH)
                   then ViewState.PROFILE else activeView s) /\
  isLoaded s' = isLoaded s /\ selectedProject s' = selectedProject s /\
  sessionTime s' = sessionTime s /\ currentTheme s' = currentTheme s /\
  showSettings s' = showSettings s.
Proof.
  intros Hq s'. subst s'. by rewrite handleSearch_blank.
Qed.

Lemma blank_query_keeps_results_witness :
  let s := handleSearch "react" initial in
  let s' := handleSearch "  " s in
  searchResults s' = searchResults s /\
  projects (searchResults s') <> [] /\
  searchQuery s' = "  " /\
  activeView s' = ViewState.PROFILE.
Proof.
  pose proof (blank_query_keeps_results "  " (handleSearch "react" initial) eq_refl)
    as (Hres & Hq & Hview & _).
  split; [exact Hres |]. split; [by vm_compute |]. split; [exact Hq | exact Hview].
Defined.



End SearchFacts.

(** ** Command interpreter *)

Section TerminalFacts.
Import JS TerminalView.

Lemma mapi_from_length {T U} (f : T -> nat -> U) (xs : list T) (i : nat) :
  length (mapi_from i f xs) = length xs.
Proof.
  revert i. induction xs as [|x xs IH]; intros i; simpl; [done | by rewrite IH].
Qed.


(** C4, as amended: when the trimmed, lowercased input is [ls], pressing
    Enter appends the echo line, the directory header and one line per
    project, that is [length PROJECTS + 2] lines, whatever the history. *)
Theorem ls_appends_projects_plus_two (s : State) :
  toLowerCase (trim (input s)) = "ls" ->
  let s' := handleCommand "Enter" s in
  history s' =
    history s ++ ("> " +:+ input s) :: "PROJECTS DIRECTORY:" ::
      mapi (fun p i => "  [" +:+ toString i +:+ "] " +:+ title p
                       +:+ " (" +:+ type p +:+ ")") PROJECTS /\
  length (history s') = (length (history s) + (length PROJECTS + 2))%nat.
Proof.
  intros Hcmd s'. subst s'. unfold handleCommand. rewrite Hcmd.
  destruct (decide ("Enter" = "Enter")) as [_|]; [| done].
  destruct (decide ("ls" = "help")) as [|_]; [done |].
  destruct (decide ("ls" = "ls")) as [_|]; [| done].
  cbn [commit history]. split.
  - by rewrite <- !app_assoc.
  - rewrite !length_app. unfold mapi. rewrite mapi_from_length.
    cbn [length]. lia.
Qed.

Lemma ls_appends_projects_plus_two_witness :
  let s := setInput " LS " initial in
  let s' := handleCommand "Enter" s in
  history s' =
    history s ++ ("> " +:+ input s) :: "PROJECTS DIRECTORY:" ::
      mapi (fun p i => "  [" +:+ toString i +:+ "] " +:+ title p
                       +:+ " (" +:+ type p +:+ ")") PROJECTS /\
  length (history s') = (length (history s) + (length PROJECTS + 2))%nat.
Proof. apply (ls_appends_projects_plus_two (setInput " LS " initial)). reflexivity. Defined.

(** C4 as stated fails: [ls] on the initial scrollback appends five lines
    for three projects, not four. *)
Lemma ls_line_count_counterexample :
  length (history (execute "ls" initial)) = (length (history initial) + 5)%nat /\
  length (history (execute "ls" initial)) <>
    (length (history initial) + (length PROJECTS + 1))%nat.
Proof. split; [by vm_compute |]. vm_compute. discriminate. Qed.




End TerminalFacts.

(** ** Assistant response pipeline *)

Section AssistantFacts.
Import JS NeuralChatWidget.

Variable VITE_API_KEY : option string.
Variable contextData : string.



(** The guard of [handleSend] lets an input through when it is not blank
    and no reply is awaited. *)
Lemma handleSend_accepts (now : Z) (s : State) :
  trim (input s) <> "" -> loading s = false ->
  handleSend VITE_API_KEY contextData now s =
    (let userMsg := {| role := user; text := input s; timestamp := now |} in
     let s1 := {| input := ""; loading := true;
                  messages := messages s ++ [userMsg] |} in
     if decide (apiKey VITE_API_KEY = "demo_key")
     then (s1, Some (SimulationTimeout 600 (input s)))
     else (s1, Some (GenerateContent
                       (systemPrompt contextData +:+ nl +:+ nl
                          +:+ "User question: " +:+ input s) (input s)))).
Proof.
  intros Hin Hload. unfold handleSend. rewrite Hload.
  destruct (trim (input s)); [done |]. simpl. by case_decide.
Qed.

(** C7: with no credential, an input holding [project] in any letter case
    and at any position is answered by the one projects reply; the send
    leaves only the 600 ms timer behind, no request to the endpoint, and the
    reply does not depend on how any API call would settle. *)
Theorem offline_project_reply (t0 t1 t2 : Z) (r : GenerateResult) (s : State) :
  apiKey VITE_API_KEY = "demo_key" ->
  containsAnyCase "project" (input s) ->
  getSimulationResponse (input s) = projectsReply /\
  networkRequests (snd (handleSend VITE_API_KEY contextData t0 s)) = [] /\
  (loading s = false ->
   respond VITE_API_KEY contextData t0 t1 t2 r s =
     Normal {| input := ""; loading := false;
               messages := messages s ++
                 [{| role := user; text := input s; timestamp := t0 |};
                  {| role := model; text := projectsReply; timestamp := t1 |}] |}).
Proof.
  intros Hkey Hproj.
  assert (getSimulationResponse (input s) = projectsReply) as Hreply.
  { unfold getSimulationResponse. cbv zeta.
    by rewrite (containsAnyCase_includes _ _ Hproj). }
  assert (trim (input s) <> "") as Hin.
  { by apply (containsAnyCase_not_blank "project"). }
  split; [done |]. split.
  - unfold handleSend. destruct (_ || _); [done |]. cbv zeta.
    by destruct (decide (apiKey VITE_API_KEY = "demo_key")).
  - intros Hload. unfold respond.
    rewrite (handleSend_accepts t0 s Hin Hload). cbv zeta.
    destruct (decide (apiKey VITE_API_KEY = "demo_key")) as [_|]; [| done].
    cbn [settle]. unfold simulationTimeout. rewrite Hreply.
    unfold setLoading, appendMessage. cbn [input loading messages].
    by rewrite <- app_assoc.
Qed.

(** C3: whichever task delivers a reply (the offline timer, the resolved
    API call, or the fallback timer after a failed call), the reply is put in
    a message of role [model], the assistant's role, stamped with the clock
    reading of that moment, and the message list becomes the list as it was
    followed by that one message.  A failed call itself delivers nothing yet:
    it leaves the messages alone and sets the fallback timer. *)
Theorem assistant_reply_appended (now : Z) (t : Task) (r : GenerateResult)
    (s : State) :
  exists s' next,
    settle now t r s = Normal (s', next) /\
    match t, tryReply r with
    | GenerateContent _ input, Throw _ =>
        messages s' = messages s /\ next = Some (FallbackTimeout 1500 input)
    | GenerateContent _ _, Normal reply =>
        messages s' = messages s ++
          [{| role := model; text := reply; timestamp := now |}] /\
        next = None
    | SimulationTimeout _ text, _ | FallbackTimeout _ text, _ =>
        messages s' = messages s ++
          [{| role := model; text := getSimulationResponse text;
              timestamp := now |}] /\
        next = None
    end.
Proof.
  destruct t as [ms text|fullPrompt input|ms input]; cbn [settle].
  - by eexists _, _.
  - unfold generateSettled. destruct (tryReply r) as [reply|e]; by eexists _, _.
  - by eexists _, _.
Qed.


End AssistantFacts.

Section AssistantExamples.
Import JS NeuralChatWidget.


Lemma offline_project_reply_witness :
  let s := setInput "Tell me about your PROJECTS" (initial 0) in
  getSimulationResponse (input s) = projectsReply /\
  networkRequests (snd (handleSend None "{}" 10 s)) = [] /\
  respond None "{}" 10 610 0 (Rejected "offline") s =
    Normal {| input := ""; loading := false;
              messages := messages s ++
                [{| role := user; text := input s; timestamp := 10 |};
                 {| role := model; text := projectsReply; timestamp := 610 |}] |}.
Proof.
  pose proof (offline_project_reply None "{}" 10 610 0 (Rejected "offline")
                (setInput "Tell me about your PROJECTS" (initial 0))) as H.
  destruct H as (H1 & H2 & H3).
  - reflexivity.
  - exists "Tell me about your ", "PROJECT", "S". split; reflexivity.
  - split; [exact H1 |]. split; [exact H2 |]. apply H3. reflexivity.
Defined.



End AssistantExamples.

(** ** Base64 helpers *)

Section Base64Facts.
Import JSLib Base64 AudioHelpers.

Example btoa_vectors :
  btoa "Man" = "TWFu" /\ btoa "Ma" = "TWE=" /\ btoa "M" = "TQ==".
Proof. by vm_compute. Qed.

Example atob_vectors :
  atob " TWFu" = Some "Man" /\ atob "TWE" = Some "Ma" /\ atob "TQ==" = Some "M"
  /\ atob "TWFuT" = None /\ atob "TW=u" = None /\ atob "TQ=" = None.
Proof. by vm_compute. Qed.

(** Strings three characters at a time. *)
Lemma string_ind3 (P : string -> Prop) :
  P EmptyString ->
  (forall a, P (String a EmptyString)) ->
  (forall a b, P (String a (String b EmptyString))) ->
  (forall a b c s, P s -> P (String a (String b (String c s)))) ->
  forall s, P s.
Proof.
  intros H0 H1 H2 H3. fix IH 1.
  intros [|a [|b [|c s]]]; [apply H0 | apply H1 | apply H2 |].
  apply H3, IH.
Qed.

Lemma charSextet_sextetChar (s : Sextet) : charSextet (sextetChar s) = Some s.
Proof. by destruct s as [[] [] [] [] [] []]. Qed.

Lemma sextetChar_not_whitespace (s : Sextet) :
  isAsciiWhitespace (sextetChar s) = false.
Proof. by destruct s as [[] [] [] [] [] []]. Qed.

Lemma sextetChar_not_padding (s : Sextet) : Ascii.eqb (sextetChar s) "=" = false.
Proof. by destruct s as [[] [] [] [] [] []]. Qed.

Lemma byte1_sextets (a b : ascii) : byte1 (sextet1 a) (sextet2 a b) = a.
Proof. by destruct a, b. Qed.

Lemma byte2_sextets (a b c : ascii) : byte2 (sextet2 a b) (sextet3 b c) = b.
Proof. by destruct a, b, c. Qed.

Lemma byte3_sextets (b c : ascii) : byte3 (sextet3 b c) (sextet4 c) = c.
Proof. by destruct b, c. Qed.

Lemma stripWhitespace_btoa (s : string) : stripWhitespace (btoa s) = btoa s.
Proof.
  induction s as [|a|a b|a b c s IH] using string_ind3;
    cbn [btoa stripWhitespace]; rewrite ?sextetChar_not_whitespace; try done.
  by rewrite IH.
Qed.

Lemma length_btoa (s : string) :
  String.length (btoa s) = (4 * ((String.length s + 2) / 3))%nat.
Proof.
  induction s as [|a|a b|a b c s IH] using string_ind3; try done.
  cbn [btoa String.length]. rewrite IH.
  replace (S (S (S (String.length s))) + 2)%nat
    with ((String.length s + 2) + 1 * 3)%nat by lia.
  rewrite Nat.div_add by done. lia.
Qed.

Lemma dropPadding_cons (c : ascii) (s : string) :
  Ascii.eqb c "=" = false -> dropPadding (String c s) = String c (dropPadding s).
Proof. intros Hc. cbn [dropPadding]. by rewrite Hc. Qed.

Lemma decodeChars_btoa (s : string) :
  decodeChars (dropPadding (btoa s)) = Some s.
Proof.
  induction s as [|a|a b|a b c s IH] using string_ind3; cbn [btoa];
    rewrite ?dropPadding_cons by apply sextetChar_not_padding.
  - done.
  - change (dropPadding "==") with EmptyString. cbn [decodeChars].
    rewrite !charSextet_sextetChar. cbn [mbind option_bind].
    by rewrite byte1_sextets.
  - change (dropPadding "=") with EmptyString. cbn [decodeChars].
    rewrite !charSextet_sextetChar. cbn [mbind option_bind].
    by rewrite byte1_sextets, byte2_sextets.
  - destruct (dropPadding (btoa s)) as [|d rest] eqn:Hrest;
      cbn [decodeChars] in IH |- *;
      rewrite !charSextet_sextetChar; cbn [mbind option_bind].
    + injection IH as <-. cbn [mbind option_bind].
      by rewrite byte1_sextets, byte2_sextets, byte3_sextets.
    + rewrite IH. cbn [mbind option_bind].
      by rewrite byte1_sextets, byte2_sextets, byte3_sextets.
Qed.

(** [atob] undoes [btoa] on every binary string. *)
Lemma atob_btoa (s : string) : atob (btoa s) = Some s.
Proof.
  unfold atob. rewrite stripWhitespace_btoa, length_btoa.
  replace (4 * ((String.length s + 2) / 3))%nat
    with (0 + ((String.length s + 2) / 3) * 4)%nat by lia.
  rewrite Nat.Div0.mod_add. apply decodeChars_btoa.
Qed.

Lemma append_nil_r (s : string) : s +:+ "" = s.
Proof.
  induction s as [|c s IH]; [done |]. exact (f_equal (String c) IH).
Qed.

Lemma append_assoc (s1 s2 s3 : string) :
  (s1 +:+ s2) +:+ s3 = s1 +:+ (s2 +:+ s3).
Proof.
  induction s1 as [|c s1 IH]; [done |]. exact (f_equal (String c) IH).
Qed.

(** What the loop of [encode] builds. *)
Lemma encode_loop (bytes : list Byte.byte) (acc : string) :
  fold_left (fun binary b => binary +:+ String (fromCharCode b) EmptyString)
            bytes acc
  = acc +:+ String.string_of_list_ascii (map fromCharCode bytes).
Proof.
  revert acc. induction bytes as [|b bytes IH]; intros acc; cbn [fold_left map].
  - simpl. by rewrite append_nil_r.
  - by rewrite IH, append_assoc.
Qed.

Lemma encode_binary (bytes : list Byte.byte) :
  fold_left (fun binary b => binary +:+ String (fromCharCode b) EmptyString)
            bytes EmptyString
  = String.string_of_list_ascii (map fromCharCode bytes).
Proof. exact (encode_loop bytes EmptyString). Qed.

(** What the loop of [decode] reads. *)
Lemma decode_loop (s : string) :
  map (fun i => charCodeAt s i) (seq 0 (String.length s))
  = map byte_of_ascii (String.list_ascii_of_string s).
Proof.
  induction s as [|c s IH]; cbn; [done |]. f_equal.
  rewrite <- seq_shift, map_map. exact IH.
Qed.

Lemma length_string_of_list_ascii (l : list ascii) :
  String.length (String.string_of_list_ascii l) = length l.
Proof. induction l as [|c l IH]; cbn; [done | by rewrite IH]. Qed.

(** X1: [decode] undoes [encode]: every byte array comes back unchanged,
    and [decode] does not throw on what [encode] produced. *)
Theorem decode_encode (bytes : list Byte.byte) :
  decode (encode bytes) = Normal bytes.
Proof.
  unfold decode, encode. rewrite encode_binary, atob_btoa, decode_loop.
  rewrite String.list_ascii_of_string_of_list_ascii, map_map. f_equal.
  induction bytes as [|b bytes IH]; cbn; [done |].
  unfold fromCharCode at 1. by rewrite byte_of_ascii_of_byte, IH.
Qed.

(** X2: [encode] gives four characters for every started group of three
    bytes, so its length is a multiple of four. *)
Theorem encode_length (bytes : list Byte.byte) :
  String.length (encode bytes) = (4 * ((length bytes + 2) / 3))%nat.
Proof.
  unfold encode. rewrite encode_binary.
  by rewrite length_btoa, length_string_of_list_ascii, length_map.
Qed.

End Base64Facts.

(** ** Uptime display *)

Section ClockFacts.
Import JSLib AppClock.

Lemma Z_below_forallb (f : Z -> bool) (n : Z) :
  forallb f (map Z.of_nat (seq 0 (Z.to_nat n))) = true ->
  forall z, 0 <= z < n -> f z = true.
Proof.
  intros Hall z Hz. rewrite forallb_forall in Hall. apply Hall.
  apply in_map_iff. exists (Z.to_nat z). split; [lia |].
  apply in_seq. lia.
Qed.

(** X3: below one hundred minutes the uptime is shown as exactly five
    characters, two digits of minutes, a colon and two digits of seconds. *)
Theorem formatTime_mm_ss (seconds : Z) :
  0 <= seconds < 6000 ->
  formatTime seconds =
    String (digit (seconds / 60 / 10))
      (String (digit ((seconds / 60) mod 10))
         (String ":"
            (String (digit ((seconds mod 60) / 10))
               (String (digit ((seconds mod 60) mod 10)) EmptyString)))).
Proof.
  intros Hs. apply String.eqb_eq.
  apply (Z_below_forallb
           (fun z => String.eqb (formatTime z)
              (String (digit (z / 60 / 10))
                 (String (digit ((z / 60) mod 10))
                    (String ":"
                       (String (digit ((z mod 60) / 10))
                          (String (digit ((z mod 60) mod 10)) EmptyString))))))
           6000); [by vm_compute | done].
Qed.

Lemma formatTime_mm_ss_witness :
  formatTime 754 = "12:34".
Proof. rewrite (formatTime_mm_ss 754) by lia. reflexivity. Defined.

End ClockFacts.

(** ** More on search and navigation *)

Section SearchMoreFacts.
Import JS App SearchResultsView.

(** What a query that is not blank leaves behind, cell by cell. *)
Lemma handleSearch_nonblank (q : string) (s : State) :
  trim q <> "" ->
  handleSearch q s =
    {| activeView := ViewState.SEARCH;
       isLoaded := isLoaded s; selectedProject := selectedProject s;
       sessionTime := sessionTime s; currentTheme := currentTheme s;
       showSettings := showSettings s; searchQuery := q;
       searchResults := searchOf q |}.
Proof.
  intros Hq. unfold handleSearch, searchOf.
  destruct (decide (trim q = "")) as [|_]; [done |].
  destruct (decide (activeView s <> ViewState.SEARCH)) as [|Hv]; [done |].
  destruct (decide (activeView s = ViewState.SEARCH)) as [Hv'|]; [| done].
  unfold setSearchResults, setSearchQuery. cbn. by rewrite Hv'.
Qed.

(** X4: typing the same value twice is the same as typing it once. *)
Theorem handleSearch_idempotent (q : string) (s : State) :
  handleSearch q (handleSearch q s) = handleSearch q s.
Proof.
  destruct (decide (trim q = "")) as [Hq|Hq].
  - rewrite !(handleSearch_blank q) by done. cbn.
    destruct (decide (activeView s = ViewState.SEARCH)) as [Hv|Hv]; cbn.
    + done.
    + by destruct (decide (activeView s = ViewState.SEARCH)).
  - by rewrite !(handleSearch_nonblank q) by done.
Qed.

(** The Search view is only ever entered by [handleSearch] on a query that
    is not blank, and left by whatever changes the query or the view. *)
Lemma step_in_sync (s s' : State) :
  step s s' -> searchViewInSync s -> searchViewInSync s'.
Proof.
  intros Hstep Hs. destruct Hstep as [q s|v s Hv|s Hview Hnone|p s|s|s|th s Hth|s];
    try exact Hs.
  - destruct (decide (trim q = "")) as [Hq|Hq].
    + rewrite handleSearch_blank by done. intros Hview. cbn in Hview.
      by destruct (decide (activeView s = ViewState.SEARCH)).
    + rewrite handleSearch_nonblank by done. by intros _.
  - unfold handleNavClick. destruct (decide (v = activeView s)); [done |].
    intros Hview. cbn in Hview. subst v.
    cbn in Hv. by repeat destruct Hv as [Hv|Hv].
  - by intros Hview'.
Qed.

Lemma reachable_in_sync (s : State) :
  reachable s -> searchViewInSync s.
Proof.
  induction 1 as [|s s' _ IH Hstep].
  - by intros Hview.
  - by apply (step_in_sync s).
Qed.



Lemma substringOf_trans (a b c : string) :
  substringOf a b -> substringOf b c -> substringOf a c.
Proof.
  intros (pre1 & post1 & ->) (pre2 & post2 & ->).
  exists (pre2 +:+ pre1), (post1 +:+ post2).
  by rewrite !append_assoc.
Qed.

Lemma includes_narrow (field q1 q2 : string) :
  substringOf q1 q2 -> includes field q2 = true -> includes field q1 = true.
Proof.
  rewrite !includes_spec. intros H12 H2. by apply (substringOf_trans q1 q2).
Qed.

Lemma existsb_impl {T} (f g : T -> bool) (l : list T) :
  (forall x, f x = true -> g x = true) -> existsb f l = true -> existsb g l = true.
Proof.
  intros Hfg. rewrite !existsb_exists. intros (x & Hx & Hf). eauto.
Qed.

Lemma List_filter_narrow {T} (f g : T -> bool) (l : list T) :
  (forall x, f x = true -> g x = true) ->
  List.filter f l `sublist_of` List.filter g l.
Proof.
  intros Hfg. induction l as [|x l IH]; cbn; [constructor |].
  destruct (f x) eqn:Hf.
  - rewrite (Hfg x Hf). by constructor.
  - destruct (g x); [by constructor | done].
Qed.

(** X6: a longer query narrows the results.  For two queries of ASCII
    characters, neither blank, when the lowercased first query occurs inside
    the lowercased second one, what the second query finds is, list by list
    and in order, among what the first one finds. *)
Theorem longer_query_narrows (q1 q2 : string) (s1 s2 : State) :
  isASCII q1 = true -> isASCII q2 = true ->
  trim q1 <> "" -> trim q2 <> "" ->
  substringOf (toLowerCase q1) (toLowerCase q2) ->
  let r1 := searchResults (handleSearch q1 s1) in
  let r2 := searchResults (handleSearch q2 s2) in
  projects r2 `sublist_of` projects r1 /\
  education r2 `sublist_of` education r1 /\
  skills r2 `sublist_of` skills r1.
Proof.
  intros _ _ H1 H2 Hsub r1 r2. subst r1 r2.
  rewrite !handleSearch_nonblank by done. cbn [searchResults searchOf].
  cbn [projects education skills].
  repeat split; apply List_filter_narrow; intros x.
  - unfold projectMatches. rewrite !orb_true_iff.
    intros [[H|H]|H]; eauto using includes_narrow.
    right. revert H. apply existsb_impl. eauto using includes_narrow.
  - unfold educationMatches. rewrite !orb_true_iff.
    intros [[H|H]|H]; eauto using includes_narrow.
    right. destruct (details x); [| done].
    revert H. apply existsb_impl. eauto using includes_narrow.
  - unfold skillMatches. eauto using includes_narrow.
Qed.

Lemma longer_query_narrows_witness :
  let r1 := searchResults (handleSearch "Re" initial) in
  let r2 := searchResults (handleSearch "react" initial) in
  projects r2 `sublist_of` projects r1 /\
  education r2 `sublist_of` education r1 /\
  skills r2 `sublist_of` skills r1.
Proof.
  apply (longer_query_narrows "Re" "react" initial initial).
  - reflexivity.
  - reflexivity.
  - vm_compute. discriminate.
  - vm_compute. discriminate.
  - by exists "", "act".
Defined.

(** X7: what the Search view renders.  In every reachable state with the
    Search view active and a stored query of ASCII characters, the component
    returns the no-match message for that query when nothing in the store
    matches it, and otherwise the result page for that query whose sections
    are, in this order and each only if not empty, the matching projects,
    skills and education entries; it never returns the prompt it has for an
    empty query. *)
Theorem search_view_rendering (s : State) :
  reachable s -> activeView s = ViewState.SEARCH ->
  isASCII (searchQuery s) = true ->
  let q := searchQuery s in
  let ps := List.filter (projectMatches (toLowerCase q)) PROJECTS in
  let edus := List.filter (educationMatches (toLowerCase q)) EDUCATION_HISTORY in
  let sks := List.filter (skillMatches (toLowerCase q)) SKILL_METRICS in
  let nothingMatches :=
    (forall p, In p PROJECTS -> ~ projectMatchesSpec q p) /\
    (forall edu, In edu EDUCATION_HISTORY -> ~ educationMatchesSpec q edu) /\
    (forall sk, In sk SKILL_METRICS -> ~ skillMatchesSpec q sk) in
  (nothingMatches -> shown s = NoMatchingEntities q) /\
  (~ nothingMatches ->
   shown s =
     ResultPage q
       ((if nonEmpty ps then [ProjectsDetected ps] else []) ++
        (if nonEmpty sks then [CompetenciesFound sks] else []) ++
        (if nonEmpty edus then [AcademicRecords edus] else [])) /\
   (nonEmpty ps || nonEmpty sks || nonEmpty edus) = true).
Proof.
  intros Hreach Hview _ q ps edus sks nothingMatches.
  destruct (reachable_in_sync s Hreach Hview) as [Hq Hres].
  assert (forall T (f : T -> bool) (l : list T),
           nonEmpty (List.filter f l) = false <->
           forall x, In x l -> f x <> true) as Hempty.
  { intros T f l. unfold nonEmpty. rewrite bool_decide_eq_false. split.
    - intros Hlen x Hx Hf.
      assert (In x (List.filter f l)) as Hin by (by apply filter_In).
      destruct (List.filter f l); [done | cbn in Hlen; lia].
    - intros Hall Hlen. destruct (List.filter f l) as [|x l'] eqn:Hfl;
        [cbn in Hlen; lia |].
      assert (In x (List.filter f l)) as Hin by (rewrite Hfl; by left).
      apply filter_In in Hin as [Hx Hf]. by apply (Hall x). }
  assert (nothingMatches <->
          nonEmpty ps = false /\ nonEmpty edus = false /\ nonEmpty sks = false)
    as Hnothing.
  { subst nothingMatches ps edus sks. rewrite !Hempty.
    setoid_rewrite <- projectMatches_spec.
    setoid_rewrite <- educationMatches_spec.
    by setoid_rewrite <- skillMatches_spec. }
  assert (shown s =
          if negb (nonEmpty ps || nonEmpty edus || nonEmpty sks)
          then NoMatchingEntities q
          else ResultPage q
                 ((if nonEmpty ps then [ProjectsDetected ps] else []) ++
                  (if nonEmpty sks then [CompetenciesFound sks] else []) ++
                  (if nonEmpty edus then [AcademicRecords edus] else [])))
    as ->.
  { unfold shown, render. rewrite Hres. fold q.
    assert (truthy q = true) as ->.
    { subst q. by destruct (searchQuery s). }
    reflexivity. }
  clearbody ps edus sks nothingMatches.
  destruct (nonEmpty ps), (nonEmpty edus), (nonEmpty sks); cbn [orb negb];
    (split;
     [intros Hn; apply Hnothing in Hn as (? & ? & ?); done
     |intros Hn; try done; exfalso; apply Hn, Hnothing; done]).
Qed.

Lemma search_view_rendering_witness :
  shown (handleSearch "zzz" initial) = NoMatchingEntities "zzz" /\
  shown (handleSearch "java" initial) =
    ResultPage "java"
      [CompetenciesFound [{| subject := "Java"; A := 75; fullMark := 100 |}]].
Proof.
  split.
  - apply (search_view_rendering (handleSearch "zzz" initial)).
    + apply (reachable_step initial); [apply reachable_initial | constructor].
    + reflexivity.
    + reflexivity.
    + repeat split; intros x Hx; repeat destruct Hx as [<-|Hx]; try done;
        (rewrite <- ?projectMatches_spec, <- ?educationMatches_spec,
           <- ?skillMatches_spec; by vm_compute).
  - apply (search_view_rendering (handleSearch "java" initial)).
    + apply (reachable_step initial); [apply reachable_initial | constructor].
    + reflexivity.
    + reflexivity.
    + intros (_ & _ & Hsk).
      apply (Hsk {| subject := "Java"; A := 75; fullMark := 100 |}).
      * cbn. tauto.
      * apply skillMatches_spec. by vm_compute.
Defined.

(** X8: the state cells stay well-formed: the theme is always one of
    [THEMES] and the session clock never runs below zero. *)
Theorem theme_and_clock_invariant (s : State) :
  reachable s -> In (currentTheme s) THEMES /\ 0 <= sessionTime s.
Proof.
  induction 1 as [|s s' _ [IHt IHc] Hstep].
  - split; [by left | done].
  - destruct Hstep; cbn; try done.
    + destruct (decide (trim q = "")).
      * by rewrite handleSearch_blank.
      * by rewrite handleSearch_nonblank.
    + unfold handleNavClick. by destruct (decide _).
    + split; [done | lia].
Qed.

Lemma theme_and_clock_invariant_witness :
  In (currentTheme (setSessionTime (fun t => t + 1) initial)) THEMES /\
  0 <= sessionTime (setSessionTime (fun t => t + 1) initial).
Proof.
  apply theme_and_clock_invariant.
  apply (reachable_step initial); [apply reachable_initial | constructor].
Defined.

End SearchMoreFacts.

(** ** More on the command interpreter *)

Section TerminalMoreFacts.
Import JS TerminalView.

(** X9: a line of ASCII characters that is none of the six commands once
    trimmed and lowercased, the empty line included, appends exactly two
    lines: the echo of the line as typed and one error naming the normalised
    command. *)
Theorem unknown_command_two_lines (s : State) :
  isASCII (input s) = true ->
  let cmd := toLowerCase (trim (input s)) in
  ~ In cmd ["help"; "ls"; "whoami"; "skills"; "contact"; "clear"] ->
  handleCommand "Enter" s =
    {| history := history s ++
         ["> " +:+ input s;
          "ERROR: Command " +:+ dquote +:+ cmd +:+ dquote
            +:+ " not recognized. Type " +:+ dquote +:+ "help" +:+ dquote +:+ "."];
       input := "" |}.
Proof.
  intros _ cmd Hcmd. unfold handleCommand. fold cmd.
  destruct (decide ("Enter" = "Enter")) as [_|]; [| done].
  repeat (case_decide as Heq;
          [exfalso; apply Hcmd; rewrite Heq; cbn; tauto | clear Heq]).
  unfold commit. by rewrite <- app_assoc.
Qed.

Lemma unknown_command_two_lines_witness :
  history (handleCommand "Enter" initial) =
    history initial ++
      ["> ";
       "ERROR: Command " +:+ dquote +:+ dquote
         +:+ " not recognized. Type " +:+ dquote +:+ "help" +:+ dquote +:+ "."].
Proof.
  rewrite (unknown_command_two_lines initial); [reflexivity | reflexivity |].
  vm_compute. intros H. repeat destruct H as [H|H]; congruence.
Defined.

(** X10: [clear], in any letter case and with any white space around it,
    leaves exactly the one marker line and an empty input, whatever the
    scrollback held. *)
Theorem clear_resets_history (s : State) :
  toLowerCase (trim (input s)) = "clear" ->
  handleCommand "Enter" s = {| history := ["> CONSOLE CLEARED"]; input := "" |}.
Proof.
  intros Hcmd. unfold handleCommand. rewrite Hcmd.
  destruct (decide ("Enter" = "Enter")) as [_|]; [| done].
  by repeat (case_decide; [done |]).
Qed.

Lemma clear_resets_history_witness :
  execute "  CLEAR " (execute "ls" initial) =
    {| history := ["> CONSOLE CLEARED"]; input := "" |}.
Proof.
  apply (clear_resets_history (setInput "  CLEAR " (execute "ls" initial))).
  reflexivity.
Defined.

(** X11: what a command prints depends on the trimmed, lowercased line
    alone: two lines of ASCII characters that normalise to the same command
    other than [clear] append the same output after their own echo. *)
Theorem output_depends_on_normalised_command (s1 s2 : State) :
  isASCII (input s1) = true -> isASCII (input s2) = true ->
  toLowerCase (trim (input s1)) = toLowerCase (trim (input s2)) ->
  toLowerCase (trim (input s2)) <> "clear" ->
  exists output,
    history (handleCommand "Enter" s1) =
      history s1 ++ ("> " +:+ input s1) :: output /\
    history (handleCommand "Enter" s2) =
      history s2 ++ ("> " +:+ input s2) :: output.
Proof.
  intros _ _ Heq Hcmd. unfold handleCommand. rewrite Heq.
  destruct (decide ("Enter" = "Enter")) as [_|]; [| done].
  repeat case_decide; try done; cbn [commit history];
    rewrite <- ?app_assoc; cbn [app]; eexists; split; reflexivity.
Qed.

Lemma output_depends_on_normalised_command_witness :
  exists output,
    history (execute " WhoAmI" initial) =
      history initial ++ ">  WhoAmI" :: output /\
    history (execute "whoami" (execute "help" initial)) =
      history (execute "help" initial) ++ "> whoami" :: output.
Proof.
  apply (output_depends_on_normalised_command
           (setInput " WhoAmI" initial)
           (setInput "whoami" (execute "help" initial))).
  - reflexivity.
  - reflexivity.
  - reflexivity.
  - vm_compute. discriminate.
Defined.

(** X12: for a line of ASCII characters, Enter empties the input, and
    every command but [clear] makes the scrollback at least two lines
    longer: its echo and at least one line of output. *)
Theorem command_always_answers (s : State) :
  isASCII (input s) = true ->
  toLowerCase (trim (input s)) <> "clear" ->
  let s' := handleCommand "Enter" s in
  input s' = "" /\
  (length (history s) + 2 <= length (history s'))%nat.
Proof.
  intros _ Hcmd s'. subst s'. unfold handleCommand.
  destruct (decide ("Enter" = "Enter")) as [_|]; [| done].
  repeat case_decide; try done; cbn [commit history input];
    (split; [done |]); rewrite ?length_app; cbn [length]; lia.
Qed.

Lemma command_always_answers_witness :
  input (execute "skills" initial) = "" /\
  (length (history (setInput "skills" initial)) + 2
   <= length (history (execute "skills" initial)))%nat.
Proof.
  apply (command_always_answers (setInput "skills" initial)); [reflexivity |].
  vm_compute. discriminate.
Defined.

Lemma mapi_from_lookup {T U} (f : T -> nat -> U) (xs : list T) (k i : nat) :
  mapi_from k f xs !! i = (fun x => f x (k + i)%nat) <$> xs !! i.
Proof.
  revert k i. induction xs as [|x xs IH]; intros k i; [done |].
  destruct i as [|i]; cbn.
  - by rewrite Nat.add_0_r.
  - rewrite IH. by replace (S k + i)%nat with (k + S i)%nat by lia.
Qed.

(** X13: the listing of [ls] is numbered from zero in store order: the
    line for the project at index [i] sits [i + 2] lines below the old end of
    the scrollback and carries [i], the project's title and its type. *)
Theorem ls_lists_projects_by_index (s : State) (i : nat) (p : Project) :
  toLowerCase (trim (input s)) = "ls" ->
  PROJECTS !! i = Some p ->
  history (handleCommand "Enter" s) !! (length (history s) + 2 + i)%nat =
    Some ("  [" +:+ toString i +:+ "] " +:+ title p +:+ " (" +:+ type p +:+ ")").
Proof.
  intros Hcmd Hp. unfold handleCommand. rewrite Hcmd.
  destruct (decide ("Enter" = "Enter")) as [_|]; [| done].
  destruct (decide ("ls" = "help")) as [|_]; [done |].
  destruct (decide ("ls" = "ls")) as [_|]; [| done].
  cbn [commit history]. rewrite <- !app_assoc.
  rewrite lookup_app_r by lia.
  replace (length (history s) + 2 + i - length (history s))%nat
    with (S (S i)) by lia.
  cbn [app]. rewrite !lookup_cons. cbv beta iota. unfold mapi.
  by rewrite mapi_from_lookup, Hp.
Qed.

Lemma ls_lists_projects_by_index_witness :
  history (execute "ls" initial) !! 7%nat =
    Some "  [2] Cross-Platform Component Library (Frontend Infrastructure)".
Proof.
  apply (ls_lists_projects_by_index (setInput "ls" initial) 2
           {| title := "Cross-Platform Component Library";
              type := "Frontend Infrastructure";
              description := "Developed a library of reusable, responsive UI components optimized for high-volume data visualization. Built to ensure seamless performance across platforms, providing a consistent interface for complex analytical outputs.";
              tech := ["React"; "Component Lib"; "Performance"; "Design System"] |});
    reflexivity.
Defined.

End TerminalMoreFacts.

(** ** More on the assistant pipeline *)

Section ChatMoreFacts.
Import JS NeuralChatWidget ChatSession.

Variable VITE_API_KEY : option string.
Variable contextData : string.

Lemma handleSend_rejects (now : Z) (s : State) :
  trim (input s) = "" \/ loading s = true ->
  handleSend VITE_API_KEY contextData now s = (s, None).
Proof.
  intros [Hin|Hload]; unfold handleSend.
  - by rewrite Hin.
  - rewrite Hload. by rewrite orb_true_r.
Qed.

(** X14: on an input of ASCII characters, [handleSend] does nothing at
    all exactly when the input is blank or a reply is still awaited; every
    other send changes the state. *)
Theorem handleSend_noop_iff (now : Z) (s : State) :
  isASCII (input s) = true ->
  (handleSend VITE_API_KEY contextData now s = (s, None) <->
   trim (input s) = "" \/ loading s = true).
Proof.
  intros _. split; [| apply handleSend_rejects].
  intros Hsend. destruct (decide (trim (input s) = "")) as [|Hin]; [by left |].
  destruct (loading s) eqn:Hload; [by right |].
  rewrite (handleSend_accepts VITE_API_KEY contextData now s Hin Hload) in Hsend.
  cbv zeta in Hsend. by case_decide.
Qed.

(** X15: single flight.  After a send of a message of ASCII characters has
    been accepted, whatever is typed next, a further send is ignored until
    the pending task has run. *)
Theorem second_send_ignored (now now' : Z) (v : string) (s : State) :
  isASCII (input s) = true ->
  trim (input s) <> "" -> loading s = false ->
  let s1 := fst (handleSend VITE_API_KEY contextData now s) in
  handleSend VITE_API_KEY contextData now' (setInput v s1) = (setInput v s1, None).
Proof.
  intros _ Hin Hload s1. apply handleSend_rejects. right. subst s1.
  rewrite (handleSend_accepts VITE_API_KEY contextData now s Hin Hload).
  cbv zeta. by case_decide.
Qed.

Lemma apiKey_demo (key : option string) :
  apiKey key = "demo_key" <->
  key = None \/ key = Some "" \/ key = Some "demo_key".
Proof.
  unfold apiKey. destruct key as [[|c k]|]; cbn.
  - split; [by right; left | done].
  - split; [intros H; right; right; by rewrite H |].
    intros [H|[H|H]]; congruence.
  - split; [by left | done].
Qed.

(** X16: a send of an input of ASCII characters reaches the generative
    endpoint exactly when it is accepted and the configured key is a string
    other than the empty one and the [demo_key] sentinel. *)
Theorem request_iff_real_key (now : Z) (s : State) :
  isASCII (input s) = true ->
  (networkRequests (snd (handleSend VITE_API_KEY contextData now s)) <> [] <->
   (trim (input s) <> "" /\ loading s = false /\
    exists k, VITE_API_KEY = Some k /\ k <> "" /\ k <> "demo_key")).
Proof.
  intros _. split.
  - intros Hreq. destruct (decide (trim (input s) = "")) as [Hin|Hin].
    { by rewrite handleSend_rejects in Hreq by (by left). }
    destruct (loading s) eqn:Hload.
    { by rewrite handleSend_rejects in Hreq by (by right). }
    split; [done |]. split; [done |].
    rewrite (handleSend_accepts VITE_API_KEY contextData now s Hin Hload) in Hreq.
    cbv zeta in Hreq. case_decide as Hkey; [done |].
    rewrite apiKey_demo in Hkey.
    destruct VITE_API_KEY as [k|] eqn:HV; [| by destruct Hkey; left].
    exists k. split; [done |]. split; intros ->; apply Hkey; tauto.
  - intros (Hin & Hload & k & Hk & Hne & Hdemo).
    rewrite (handleSend_accepts VITE_API_KEY contextData now s Hin Hload).
    cbv zeta. case_decide as Hkey; [| done].
    apply apiKey_demo in Hkey as [H|[H|H]]; congruence.
Qed.

(** An accepted send in online mode, as an event of the session. *)
Lemma exec_sent_online (cfg : Config) (now : Z) :
  apiKey VITE_API_KEY <> "demo_key" ->
  trim (input (widget cfg)) <> "" -> loading (widget cfg) = false ->
  exec VITE_API_KEY contextData cfg (Sent now) =
    {| widget :=
         {| input := ""; loading := true;
            messages := messages (widget cfg) ++
              [{| role := user; text := input (widget cfg); timestamp := now |}] |};
       pending := pending cfg ++
         [GenerateContent (systemPrompt contextData +:+ nl +:+ nl
                             +:+ "User question: " +:+ input (widget cfg))
                          (input (widget cfg))] |}.
Proof.
  intros Hkey Hin Hload. cbn [exec].
  rewrite (handleSend_accepts VITE_API_KEY contextData now _ Hin Hload).
  cbv zeta. by case_decide.
Qed.

(** X17: a failed online call reopens the input before it is answered.
    Once the call has thrown, the loading flag is down while the fallback
    reply is still 1500 ms away, so a second question typed in that window
    is accepted: it is posted, and sent to the endpoint, ahead of any reply
    to the first.  Stated for two questions of ASCII characters. *)
Theorem failed_call_reopens_input (t0 t1 t2 : Z) (v : string)
    (r : GenerateResult) (s : State) :
  apiKey VITE_API_KEY <> "demo_key" ->
  isASCII (input s) = true -> isASCII v = true ->
  trim (input s) <> "" -> loading s = false ->
  (exists e, tryReply r = Throw e) ->
  trim v <> "" ->
  let cfg := run VITE_API_KEY contextData
               [Sent t0; Fired t1 0 r; Typed v; Sent t2]
               {| widget := s; pending := [] |} in
  messages (widget cfg) =
    messages s ++ [{| role := user; text := input s; timestamp := t0 |};
                   {| role := user; text := v; timestamp := t2 |}] /\
  pending cfg =
    [FallbackTimeout 1500 (input s);
     GenerateContent (systemPrompt contextData +:+ nl +:+ nl
                        +:+ "User question: " +:+ v) v].
Proof.
  intros Hkey _ _ Hin Hload [e Hr] Hv cfg.
  assert (cfg =
    {| widget :=
         {| input := ""; loading := true;
            messages :=
              (messages s ++
                 [{| role := user; text := input s; timestamp := t0 |}]) ++
              [{| role := user; text := v; timestamp := t2 |}] |};
       pending :=
         [FallbackTimeout 1500 (input s);
          GenerateContent (systemPrompt contextData +:+ nl +:+ nl
                             +:+ "User question: " +:+ v) v] |}) as ->.
  { subst cfg. unfold run. cbn [fold_left].
    rewrite (exec_sent_online _ t0) by done. cbn [widget pending app].
    unfold exec at 3. cbn [pending widget lookup list_lookup settle].
    unfold generateSettled. rewrite Hr.
    cbn [delete list_delete option_list app].
    unfold exec at 2. cbn [widget pending].
    by rewrite (exec_sent_online _ t2) by done. }
  cbn [widget pending messages]. by rewrite <- app_assoc.
Qed.

(** What running a task does to the messages and to the event loop. *)
Lemma settle_messages (now : Z) (t : Task) (r : GenerateResult) (s : State) :
  exists s' next,
    settle now t r s = Normal (s', next) /\
    ((messages s' = messages s /\ length (option_list next) = 1%nat) \/
     (exists reply,
        messages s' = messages s ++
          [{| role := model; text := reply; timestamp := now |}] /\
        next = None)).
Proof.
  destruct t as [ms text|fullPrompt inp|ms inp]; cbn [settle].
  - eexists _, _. split; [done |]. right. by eexists.
  - unfold generateSettled. destruct (tryReply r) as [reply|e].
    + eexists _, _. split; [done |]. right. by eexists.
    + eexists _, _. split; [done |]. by left.
  - eexists _, _. split; [done |]. right. by eexists.
Qed.

Lemma exec_prefix (cfg : Config) (ev : Event) :
  messages (widget cfg)
    `prefix_of` messages (widget (exec VITE_API_KEY contextData cfg ev)).
Proof.
  destruct ev as [v|now|now i r]; cbn [exec].
  - done.
  - unfold handleSend. destruct (_ || _); [done |]. cbv zeta.
    case_decide; cbn; by apply prefix_app_r.
  - destruct (pending cfg !! i) as [t|]; [| done].
    destruct (settle_messages now t r (widget cfg))
      as (s' & next & Hs & Hm).
    rewrite Hs. cbn [widget].
    destruct Hm as [[-> _]|(reply & -> & _)]; [done | by apply prefix_app_r].
Qed.

(** X18: nothing that happens in a session of typing, sending and timers
    removes, replaces or reorders a message: the list at any moment is a
    prefix of the list at every later moment. *)
Theorem session_messages_only_grow (events : list Event) (cfg : Config) :
  messages (widget cfg)
    `prefix_of` messages (widget (run VITE_API_KEY contextData events cfg)).
Proof.
  revert cfg. induction events as [|ev events IH]; intros cfg; [done |].
  unfold run. cbn [fold_left]. etrans; [apply (exec_prefix cfg ev) |].
  apply IH.
Qed.

(** The balance of questions, replies and pending tasks. *)
Lemma exec_balance (cfg : Config) (ev : Event) :
  let cfg' := exec VITE_API_KEY contextData cfg ev in
  (countRole user (messages (widget cfg)) + length (pending cfg')
   + countRole model (messages (widget cfg')) =
   countRole user (messages (widget cfg')) + length (pending cfg)
   + countRole model (messages (widget cfg)))%nat.
Proof.
  destruct ev as [v|now|now i r]; cbn [exec]; cbv zeta.
  - done.
  - unfold handleSend. destruct (_ || _).
    + cbn [widget pending option_list]. rewrite app_nil_r. lia.
    + cbv zeta. unfold countRole.
      case_decide; cbn [widget pending option_list messages setLoading
                        setInput appendMessage];
        rewrite !List.filter_app, !length_app; cbn; lia.
  - destruct (pending cfg !! i) as [t|] eqn:Ht; [| lia].
    assert (length (delete i (pending cfg)) = length (pending cfg) - 1)%nat
      as Hdel by (apply length_delete; by rewrite Ht).
    assert (0 < length (pending cfg))%nat as Hpos.
    { apply lookup_lt_Some in Ht. lia. }
    destruct (settle_messages now t r (widget cfg))
      as (s' & next & Hs & Hm).
    rewrite Hs. cbn [widget pending]. rewrite length_app. unfold countRole.
    destruct Hm as [[-> Hnext]|(reply & -> & ->)].
    + lia.
    + rewrite !List.filter_app, !length_app. cbn. lia.
Qed.

(** X19: every accepted question is answered once.  Throughout a session
    of typing, sending and timers started from the mounted widget, the
    number of user messages equals the number of assistant messages after
    the greeting plus the number of tasks still pending. *)
Theorem session_questions_balance (now : Z) (events : list Event) :
  let cfg := run VITE_API_KEY contextData events (start now) in
  (countRole user (messages (widget cfg)) + 1 =
   countRole model (messages (widget cfg)) + length (pending cfg))%nat.
Proof.
  assert (forall cfg0,
    (countRole user (messages (widget cfg0)) + 1 =
     countRole model (messages (widget cfg0)) + length (pending cfg0))%nat ->
    let cfg := run VITE_API_KEY contextData events cfg0 in
    (countRole user (messages (widget cfg)) + 1 =
     countRole model (messages (widget cfg)) + length (pending cfg))%nat) as Hrun.
  { induction events as [|ev events IH]; intros cfg0 H0; [done |].
    unfold run. cbn [fold_left]. apply IH.
    pose proof (exec_balance cfg0 ev) as Hstep. cbv zeta in Hstep. lia. }
  apply Hrun. reflexivity.
Qed.

End ChatMoreFacts.

Section ChatMoreExamples.
Import JS NeuralChatWidget ChatSession.

Lemma handleSend_noop_iff_witness :
  let s := setInput "   " (initial 0) in
  handleSend (Some "key") "{}" 5 s = (s, None) <->
  trim (input s) = "" \/ loading s = true.
Proof.
  apply (handleSend_noop_iff (Some "key") "{}" 5 (setInput "   " (initial 0))).
  reflexivity.
Defined.

Lemma request_iff_real_key_witness :
  let s := setInput "skills?" (initial 0) in
  networkRequests (snd (handleSend (Some "key") "{}" 5 s)) <> [] <->
  (trim (input s) <> "" /\ loading s = false /\
   exists k, Some "key" = Some k /\ k <> "" /\ k <> "demo_key").
Proof.
  apply (request_iff_real_key (Some "key") "{}" 5 (setInput "skills?" (initial 0))).
  reflexivity.
Defined.

Lemma second_send_ignored_witness :
  let s := setInput "skills?" (initial 0) in
  let s1 := fst (handleSend None "{}" 5 s) in
  handleSend None "{}" 9 (setInput "and projects?" s1)
    = (setInput "and projects?" s1, None).
Proof.
  apply (second_send_ignored None "{}" 5 9 "and projects?"
           (setInput "skills?" (initial 0))).
  - reflexivity.
  - vm_compute. discriminate.
  - reflexivity.
Defined.

Lemma failed_call_reopens_input_witness :
  let s := setInput "first" (initial 0) in
  let cfg := run (Some "key") "{}"
               [Sent 10; Fired 20 0 (Rejected "network"); Typed "second"; Sent 30]
               {| widget := s; pending := [] |} in
  messages (widget cfg) =
    messages s ++ [{| role := user; text := "first"; timestamp := 10 |};
                   {| role := user; text := "second"; timestamp := 30 |}] /\
  pending cfg =
    [FallbackTimeout 1500 "first";
     GenerateContent (systemPrompt "{}" +:+ nl +:+ nl
                        +:+ "User question: " +:+ "second") "second"].
Proof.
  apply (failed_call_reopens_input (Some "key") "{}" 10 20 30 "second"
           (Rejected "network") (setInput "first" (initial 0))).
  - vm_compute. discriminate.
  - reflexivity.
  - reflexivity.
  - vm_compute. discriminate.
  - reflexivity.
  - by exists "network".
  - vm_compute. discriminate.
Defined.

End ChatMoreExamples.

(** ** Telemetry log *)

Section FooterFacts.
Import SystemFooter.

Lemma take_app_take {T} (n : nat) (l k : list T) :
  take n (l ++ take n k) = take n (l ++ k).
Proof.
  rewrite !take_app, take_take. f_equal. f_equal. lia.
Qed.

Lemma run_latest (events : list Event) (logs : list string) :
  run events logs = take 10 (rev (map line events) ++ take 10 logs) \/
  events = [] /\ run events logs = logs.
Proof.
  revert logs. induction events as [|ev events IH]; intros logs; [by right |].
  left. unfold run. cbn [fold_left map rev]. fold (run events (step logs ev)).
  destruct (IH (step logs ev)) as [->|[-> ->]].
  - unfold step, pushLog. rewrite take_take, Nat.min_id.
    rewrite !take_app_take. by rewrite <- app_assoc.
  - unfold step, pushLog. cbn [map rev app].
    change (line ev :: take 10 logs) with ([line ev] ++ take 10 logs).
    by rewrite take_app_take.
Qed.

(** X20: the footer keeps the ten most recent log lines, newest first:
    after any sequence of ticks and view changes on the empty log, the log
    is the first ten lines of the events' lines in reverse order, so it never
    holds more than ten. *)
Theorem footer_keeps_ten_latest (events : list Event) :
  run events [] = take 10 (rev (map line events)) /\
  (length (run events []) <= 10)%nat.
Proof.
  assert (run events [] = take 10 (rev (map line events))) as ->.
  { destruct (run_latest events []) as [->|[-> ->]]; [| done].
    cbn [take]. by rewrite app_nil_r. }
  split; [done |]. rewrite length_take. lia.
Qed.

End FooterFacts.

(** ** Revealed text *)

Section RevealFacts.
Import JSLib.

Lemma slice0_all (text : string) (n : nat) :
  (String.length text <= n)%nat -> slice0 text n = text.
Proof.
  revert n. induction text as [|c text IH]; intros n Hn.
  - by destruct n.
  - destruct n as [|n]; cbn in Hn; [lia |]. cbn. rewrite IH; [done | lia].
Qed.

(** X21: [RevealText] shows one more character per firing of its
    interval: after [n] firings the first [n] characters are visible, all of
    the text from the firing numbered by its length on; the interval is
    cleared by firing [length + 1] and the counter stops there. *)
Theorem reveal_text_progress (text : string) (n : nat) :
  let st := RevealText.after text n in
  RevealText.visibleText st = slice0 text n /\
  RevealText.i st = Nat.min n (String.length text + 1) /\
  RevealText.running st = bool_decide (n <= String.length text)%nat.
Proof.
  cbv zeta. induction n as [|n (IHv & IHi & IHr)]; cbn [RevealText.after].
  - split; [done |]. split; [done |].
    symmetry. apply bool_decide_eq_true_2. lia.
  - unfold RevealText.tick. rewrite IHr. case_bool_decide as Hn.
    + cbn [RevealText.visibleText RevealText.i RevealText.running].
      rewrite IHi, Nat.min_l by lia. replace (n + 1)%nat with (S n) by lia.
      split; [done |]. split; [lia |].
      destruct (Nat.ltb_spec (String.length text) (S n)); cbn [negb]; symmetry.
      * apply bool_decide_eq_false_2. lia.
      * apply bool_decide_eq_true_2. lia.
    + cbv iota. split; [| split].
      * rewrite IHv, !slice0_all by lia. done.
      * rewrite IHi. lia.
      * rewrite IHr. symmetry. apply bool_decide_eq_false_2. lia.
Qed.

(** X22: [TypewriterParagraph] types one UTF-16 code unit per firing:
    after [n] firings the first [n] units of the text are displayed, all of
    the text once [n] reaches its length; the interval is still set after
    [n] firings exactly when [n] is at most the length, so the firing after
    the last unit clears it. *)
Theorem typewriter_progress (text : TypewriterParagraph.Text) (n : nat) :
  let st := TypewriterParagraph.after text n in
  TypewriterParagraph.displayedText st = take n text /\
  ((length text <= n)%nat -> TypewriterParagraph.displayedText st = text) /\
  TypewriterParagraph.charIndex st = Nat.min n (length text) /\
  TypewriterParagraph.running st = bool_decide (n <= length text)%nat.
Proof.
  cbv zeta.
  assert (TypewriterParagraph.displayedText (TypewriterParagraph.after text n)
            = take n text /\
          TypewriterParagraph.charIndex (TypewriterParagraph.after text n)
            = Nat.min n (length text) /\
          TypewriterParagraph.running (TypewriterParagraph.after text n)
            = bool_decide (n <= length text)%nat) as (Hv & Hi & Hr).
  { induction n as [|n (IHv & IHi & IHr)]; cbn [TypewriterParagraph.after].
    - split; [done |]. split; [done |].
      symmetry. apply bool_decide_eq_true_2. lia.
    - unfold TypewriterParagraph.tick. rewrite IHr. case_bool_decide as Hn.
      + rewrite IHi, Nat.min_l by lia.
        destruct (Nat.ltb_spec n (length text)) as [Hlt|Hge];
          cbn [TypewriterParagraph.displayedText TypewriterParagraph.charIndex
               TypewriterParagraph.running].
        * replace (n + 1)%nat with (S n) by lia.
          split; [done |]. split; [lia |].
          symmetry. apply bool_decide_eq_true_2. lia.
        * split; [| split].
          -- rewrite IHv, !take_ge by lia. done.
          -- lia.
          -- symmetry. apply bool_decide_eq_false_2. lia.
      + cbv iota. split; [| split].
        * rewrite IHv, !take_ge by lia. done.
        * rewrite IHi. lia.
        * rewrite IHr. symmetry. apply bool_decide_eq_false_2. lia. }
  split; [done |]. split; [| done].
  intros Hlen. rewrite Hv. by apply take_ge.
Qed.

Lemma typewriter_progress_witness :
  let text := [73; 32; 8212; 32; 74]%N in
  TypewriterParagraph.displayedText (TypewriterParagraph.after text 5) = text /\
  TypewriterParagraph.running (TypewriterParagraph.after text 5) = true /\
  TypewriterParagraph.running (TypewriterParagraph.after text 6) = false.
Proof.
  pose proof (typewriter_progress [73; 32; 8212; 32; 74]%N 5) as (_ & H5 & _ & Hr5).
  pose proof (typewriter_progress [73; 32; 8212; 32; 74]%N 6) as (_ & _ & _ & Hr6).
  split; [apply H5; cbn; lia |]. split; [exact Hr5 | exact Hr6].
Defined.

End RevealFacts.
